(** * SlideToObsidian: the conversion pipeline, its segmenter, assembler and
      batch scheduler, embedded from the Python sources.

    - [PyStr]            Python [str] and [list] primitives the sources use
    - [MarkdownBuilder]  src/src/markdown_builder.py
    - [Converter]        src/src/converter.py, worker.py and the adapters
    - [Batch]            src/main.py ([run_conversion])                     *)

From Stdlib Require Import List ZArith NArith Lia Bool String Ascii.
From Stdlib Require Import DecimalString DecimalN.
From Stdlib Require Import Permutation.
Import ListNotations.
Local Open Scope list_scope.

(* ===================================================================== *)
(** ** Python strings and lists *)
(* ===================================================================== *)

Module PyStr.

(** A Python [str] is a sequence of Unicode code points. *)
Definition char := N.
Definition str := list char.

(** ASCII literals of the sources, as code point sequences. *)
Definition lit (s : string) : str := map N_of_ascii (list_ascii_of_string s).

Definition NL : char := 10%N.       (* line feed *)
Definition SP : char := 32%N.       (* space *)
Definition HASH : char := 35%N.     (* hash sign *)
Definition QUOTE : char := 34%N.    (* double quote *)
Definition BSLASH : char := 92%N.   (* backslash *)

(** [Py_UNICODE_ISSPACE]: the characters [str.strip()] removes and the
    regex class [\s] matches on [str] patterns. *)
Definition isspace (c : char) : bool :=
  (((9 <=? c) && (c <=? 13)) || ((28 <=? c) && (c <=? 32))
   || (c =? 133) || (c =? 160) || (c =? 5760)
   || ((8192 <=? c) && (c <=? 8202))
   || (c =? 8232) || (c =? 8233) || (c =? 8239) || (c =? 8287)
   || (c =? 12288))%N.

(** [s.lstrip()], [s.rstrip()], [s.strip()]. *)
Fixpoint lstrip (s : str) : str :=
  match s with
  | c :: rest => if isspace c then lstrip rest else s
  | [] => []
  end.

Definition rstrip (s : str) : str := rev (lstrip (rev s)).

Definition strip (s : str) : str := rstrip (lstrip s).

(** A string is trimmed when stripping leaves it unchanged. *)
Definition trimmed (s : str) : Prop := strip s = s.

(** Truth value of a [str] or a [list]: non-empty. *)
Definition truthy {A} (l : list A) : bool :=
  match l with [] => false | _ :: _ => true end.

(** [len(l)]. *)
Definition len {A} (l : list A) : Z := Z.of_nat (List.length l).

(** [l * k]: [k] copies of the one-element list [[x]]; none when [k <= 0]. *)
Definition times {A} (x : A) (k : Z) : list A := repeat x (Z.to_nat k).

(** [l[:k]]: the first [k] elements, or all but the last [-k] when [k < 0]. *)
Definition slice_to {A} (l : list A) (k : Z) : list A :=
  if (k <? 0)%Z then firstn (Z.to_nat (len l + k)) l
  else firstn (Z.to_nat k) l.

(** [range(n)]. *)
Definition range (n : Z) : list Z := map Z.of_nat (seq 0 (Z.to_nat n)).

(** [l[i]] for an index already known to be in range; callers guard it. *)
Definition item (l : list str) (i : Z) : str := nth (Z.to_nat i) l [].

(** [sep.join(ls)]. *)
Fixpoint join (sep : str) (ls : list str) : str :=
  match ls with
  | [] => []
  | [l] => l
  | l :: rest => l ++ sep ++ join sep rest
  end.

(** [s.replace(old, new)] for a one-character [old]. *)
Definition replace1 (old : char) (new : str) (s : str) : str :=
  flat_map (fun c => if (c =? old)%N then new else [c]) s.

(** The f-string rendering of a non-negative [int]. *)
Definition str_of_int (n : Z) : str :=
  lit (NilEmpty.string_of_uint (N.to_uint (Z.to_N n))).

(** A text given line by line. *)
Definition text (ls : list string) : str := join [NL] (map lit ls).

(** A string of whitespace only (the empty string included). *)
Definition all_space (s : str) : Prop := forallb isspace s = true.

(** A string without a newline character. *)
Definition single_line (s : str) : Prop := ~ In NL s.

(** A string that [rstrip] leaves as it is. *)
Definition right_trimmed (s : str) : Prop := rstrip s = s.

(** A non-empty string whose first character is not whitespace. *)
Definition head_nonspace (s : str) : Prop :=
  match s with
  | c :: _ => isspace c = false
  | [] => False
  end.

End PyStr.

(* ===================================================================== *)
(** ** src/src/markdown_builder.py *)
(* ===================================================================== *)

Module MarkdownBuilder.
Import PyStr.
Open Scope Z_scope.

(** The heading marker [#{1,6}\s] matched at the start of [s]: some
    [k] in 1..6 with [k] hashes followed by a whitespace character. *)
Definition heading_marker (s : str) : bool :=
  existsb
    (fun k => forallb (N.eqb HASH) (firstn k s)
              && match nth_error s k with
                 | Some c => isspace c
                 | None => false
                 end)
    [1; 2; 3; 4; 5; 6]%nat.

(** [re.split] on the pattern [\n(?=#{1,6}\s)]: cut at every newline that a heading
    marker follows; the newline is dropped, the marker stays with the
    following part. [cur] holds the current part, reversed. *)
Fixpoint re_split_from (cur : str) (s : str) : list str :=
  match s with
  | [] => [rev cur]
  | c :: rest =>
      if (c =? NL)%N && heading_marker rest
      then rev cur :: re_split_from [] rest
      else re_split_from (c :: cur) rest
  end.

Definition re_split_headings (s : str) : list str := re_split_from [] s.

(** [re.match] on the pattern [^#{1,6}\s], as a truth value. *)
Definition re_match_heading (s : str) : bool := heading_marker s.

(** Lines 26-34: the loop over [range(slide_count)] of the intro case. *)
Definition intro_case (parts : list str) (slide_count : Z) : list str :=
  map (fun i =>
         if i =? 0 then (if truthy parts then item parts 0 else [])
         else if i <? len parts then strip (item parts i)
         else [])
      (range slide_count).

(** Lines 46-47: the [while len(result) < slide_count] loop appending
    empty strings. *)
Fixpoint pad_while (fuel : nat) (result : list str) (slide_count : Z)
  : list str :=
  match fuel with
  | O => result
  | S fuel' =>
      if len result <? slide_count
      then pad_while fuel' (result ++ [[]]) slide_count
      else result
  end.

(** Lines 42-48: the header-led tail of the function. *)
Definition header_case (parts : list str) (slide_count : Z) : list str :=
  if len parts >=? slide_count
  then map strip (slice_to parts slide_count)
  else let result := map strip parts in
       pad_while (Z.to_nat (slide_count - len result)) result slide_count.

Definition split_markdown_by_slides (full_md : str) (slide_count : Z)
  : list str :=
  if negb (truthy full_md) || (slide_count <=? 0) then
    if negb (slide_count =? 0) then times [] (Z.max 1 slide_count) else []
  else
    let stripped := strip full_md in
    if negb (truthy stripped) then times [] slide_count
    else
      let parts := re_split_headings stripped in
      if truthy parts && negb (re_match_heading (strip (item parts 0))) then
        if len parts <=? slide_count
        then intro_case parts slide_count
        else header_case parts slide_count
      else header_case parts slide_count.

(** *** [build_markdown] *)

(** The front-matter dict, in insertion order. It only ever holds a [str]
    under the key title and a [list] under the key speaker_notes, so the
    loop's last branch (any other value shape) has no entry to run on. *)
Inductive fm_entry :=
| FmTitle (v : str)
| FmSpeakerNotes (v : list str).

(** Line 81: escape a note: backslash, quote, then newline to space. *)
Definition escape_note (n : str) : str :=
  replace1 NL [SP]
    (replace1 QUOTE [BSLASH; QUOTE] (replace1 BSLASH [BSLASH; BSLASH] n)).

(** Line 84: escape the title: backslash and quote only. *)
Definition escape_title (v : str) : str :=
  replace1 QUOTE [BSLASH; QUOTE] (replace1 BSLASH [BSLASH; BSLASH] v).

(** Lines 76-87: the lines one dict entry contributes. *)
Definition fm_entry_lines (e : fm_entry) : list str :=
  match e with
  | FmSpeakerNotes v =>
      lit "speaker_notes:"
      :: map (fun n => lit "  - " ++ [QUOTE] ++ escape_note n ++ [QUOTE]) v
  | FmTitle v => [lit "title: " ++ [QUOTE] ++ escape_title v ++ [QUOTE]]
  end.

(** Lines 68-73: build the dict from the optional title and the notes. *)
Definition frontmatter (title : option str) (speaker_notes : list str)
  : list fm_entry :=
  let notes_for_yaml := filter truthy speaker_notes in
  (match title with
   | Some t => if truthy t then [FmTitle t] else []
   | None => []
   end)
  ++ (if truthy notes_for_yaml then [FmSpeakerNotes notes_for_yaml] else []).

(** Lines 74-89. *)
Definition frontmatter_lines (title : option str) (speaker_notes : list str)
  : list str :=
  let fm := frontmatter title speaker_notes in
  if truthy fm
  then [lit "---"] ++ flat_map fm_entry_lines fm ++ [lit "---"; []]
  else [].

(** Lines 92-93: one section per slide. *)
Definition normalize_sections (body_sections : list str) (slide_count : Z)
  : list str :=
  let sections :=
    if len body_sections >=? slide_count then body_sections
    else body_sections ++ times [] (slide_count - len body_sections) in
  slice_to sections slide_count.

(** [enumerate(l, start)]. *)
Fixpoint enumerate {A} (start : Z) (l : list A) : list (Z * A) :=
  match l with
  | [] => []
  | x :: rest => (start, x) :: enumerate (start + 1) rest
  end.

(** Line 96: the embed reference to page [n] of [pdf_ref]. *)
Definition embed_line (pdf_ref : str) (n : Z) : str :=
  lit "![[" ++ pdf_ref ++ lit "#page=" ++ str_of_int n ++ lit "]]".

(** Lines 96-101: the lines one iteration of the slide loop appends. *)
Definition slide_block (pdf_ref : str) (entry : Z * str) : list str :=
  let (n, section_text) := entry in
  [embed_line pdf_ref n; []]
  ++ (if truthy section_text then [strip section_text; []] else [])
  ++ [[]].

(** The per-slide blocks of the body, one per enumerated section. *)
Definition body_blocks (pdf_ref : str) (sections : list str)
  : list (list str) :=
  map (slide_block pdf_ref) (enumerate 1 sections).

Definition build_markdown (pdf_basename : str) (slide_count : Z)
    (speaker_notes body_sections : list str) (title : option str) : str :=
  let pdf_ref := pdf_basename ++ lit ".pdf" in
  let lines :=
    frontmatter_lines title speaker_notes
    ++ List.concat (body_blocks pdf_ref
                      (normalize_sections body_sections slide_count)) in
  strip (join [NL] lines) ++ [NL].

(** *** Reading embed references back *)

(** [s.split] on the newline character. *)
Fixpoint split_lines (s : str) : list str :=
  match s with
  | [] => [[]]
  | c :: rest =>
      if (c =? NL)%N then [] :: split_lines rest
      else match split_lines rest with
           | l :: ls => (c :: l) :: ls
           | [] => [[c]]
           end
  end.

(** [s] without the prefix [p], when it has it. *)
Fixpoint strip_prefix (p s : str) : option str :=
  match p, s with
  | [], _ => Some s
  | a :: p', b :: s' => if (a =? b)%N then strip_prefix p' s' else None
  | _ :: _, [] => None
  end.

Definition strip_suffix (p s : str) : option str :=
  option_map (@rev char) (strip_prefix (rev p) (rev s)).

(** The code points of [s] as a byte string, when all are below 256. *)
Fixpoint to_string (s : str) : option string :=
  match s with
  | [] => Some EmptyString
  | c :: rest =>
      if (c <? 256)%N
      then option_map (String (ascii_of_N c)) (to_string rest)
      else None
  end.

(** A non-empty run of decimal digits, as a number. *)
Definition parse_page (digits : str) : option Z :=
  if truthy digits then
    match to_string digits with
    | Some ds =>
        option_map (fun u => Z.of_N (N.of_uint u)) (NilEmpty.uint_of_string ds)
    | None => None
    end
  else None.

(** The embed-reference pattern of the spec, read off one line: the line
    is exactly the embed reference to some page of [pdf_basename].pdf. *)
Definition embed_page (pdf_basename : str) (line : str) : option Z :=
  match strip_prefix (lit "![[" ++ (pdf_basename ++ lit ".pdf") ++ lit "#page=")
                     line with
  | Some rest =>
      match strip_suffix (lit "]]") rest with
      | Some digits => parse_page digits
      | None => None
      end
  | None => None
  end.

(** All embed references of a text, in order of appearance. *)
Definition parse_embeds (pdf_basename : str) (text : str) : list Z :=
  flat_map (fun l => match embed_page pdf_basename l with
                     | Some n => [n]
                     | None => []
                     end)
           (split_lines text).

(** The pages [1..n]. *)
Definition pages (n : Z) : list Z := map (fun i => i + 1) (range n).

(** A section whose trimmed text has no line that is itself an embed
    reference to the document. *)
Definition embed_free (pdf_basename : str) (section_text : str) : Prop :=
  parse_embeds pdf_basename (strip section_text) = [].

(** A front-matter entry whose title, if it is one, has no newline. *)
Definition fm_single_line (e : fm_entry) : Prop :=
  match e with
  | FmTitle v => single_line v
  | FmSpeakerNotes _ => True
  end.

End MarkdownBuilder.

(* ===================================================================== *)
(** ** Exceptions and fallible calls *)
(* ===================================================================== *)

Module Py.
Import PyStr.

(** Exceptions are instances of [Exception]; the classes are the ones some
    handler of the sources names, and [OtherException] stands for the rest.
    [exc_str] is what [str(e)] returns. *)
Inductive exc_class :=
| CalledProcessError | TimeoutExpired | FileNotFoundError
| ImportError | ValueError | RuntimeError | OtherException.

Record exc := Exc { exc_cls : exc_class; exc_str : str }.

Definition exc_class_eqb (a b : exc_class) : bool :=
  match a, b with
  | CalledProcessError, CalledProcessError
  | TimeoutExpired, TimeoutExpired
  | FileNotFoundError, FileNotFoundError
  | ImportError, ImportError
  | ValueError, ValueError
  | RuntimeError, RuntimeError
  | OtherException, OtherException => true
  | _, _ => false
  end.

(** A call either returns a value or raises. *)
Inductive outcome (A : Type) :=
| Ok (a : A)
| Raise (e : exc).
Arguments Ok {A} a.
Arguments Raise {A} e.

Definition bind {A B} (m : outcome A) (f : A -> outcome B) : outcome B :=
  match m with
  | Ok a => f a
  | Raise e => Raise e
  end.

(** [try: body / except Exception as e: handler e]. *)
Definition try_except {A} (body : outcome A) (handler : exc -> outcome A)
  : outcome A :=
  match body with
  | Ok a => Ok a
  | Raise e => handler e
  end.

(** [try: body / except (C1, C2, ...) as e: handler e]: other classes
    propagate. *)
Definition try_except_of {A} (classes : list exc_class) (body : outcome A)
    (handler : exc -> outcome A) : outcome A :=
  match body with
  | Ok a => Ok a
  | Raise e =>
      if existsb (exc_class_eqb (exc_cls e)) classes then handler e
      else Raise e
  end.

End Py.

Declare Scope py_scope.
Delimit Scope py_scope with py.
Notation "x <- m ;; k" := (Py.bind m (fun x => k))
  (at level 61, m at next level, right associativity) : py_scope.
Notation "m ;;; k" := (Py.bind m (fun _ => k))
  (at level 61, right associativity) : py_scope.

(* ===================================================================== *)
(** ** src/src/converter.py, worker.py and the adapters they call *)
(* ===================================================================== *)

Module Converter.
Import PyStr MarkdownBuilder Py.
Open Scope Z_scope.
Open Scope py_scope.

(** One slide as python-pptx presents it to [_notes_text]. *)
Record slide := Slide {
  has_notes_slide : bool;
  notes_text : outcome (option str)   (* notes_slide.notes_text_frame.text *)
}.

(** What the file system, the libraries and the external processes answer
    during one conversion of one file. Every field is the result of the
    named call at its call site; the arguments [pptx_path] and [output_dir]
    of [convert_one] enter the run only through these answers. *)
Record world := World {
  (* pathlib, in convert_one *)
  resolve_pptx : outcome str;         (* str(Path(pptx_path).resolve()) *)
  resolve_output_dir : outcome str;   (* str(Path(output_dir).resolve()) *)
  stem : str;                         (* pptx_path.stem *)
  (* markitdown *)
  new_markitdown : outcome unit;      (* MarkItDown() *)
  markitdown_convert : outcome (option str);  (* .convert(...).text_content *)
  (* libreoffice.py *)
  lo_resolve : outcome unit;
  pptx_is_file : bool;
  find_libreoffice : option str;      (* _find_libreoffice() *)
  lo_mkdir : outcome unit;
  lo_tempdir : outcome unit;
  lo_subprocess_run : outcome unit;
  lo_src_pdf_is_file : bool;
  lo_copy2 : outcome str;             (* the destination path, as str *)
  (* pdf_metadata.py *)
  meta_import_fitz : outcome unit;
  pdf_is_file : bool;
  meta_stamp : outcome unit;          (* open, set_metadata, save, move *)
  count_import_fitz : outcome unit;
  count_open_len : outcome Z;         (* len(fitz.open(path)) *)
  (* pptx_utils.py *)
  count_presentation : outcome (list slide);
  notes_presentation : outcome (list slide);
  (* writing the Markdown file *)
  write_text : str -> outcome unit    (* md_path.write_text(md_content) *)
}.

(** *** libreoffice.py *)

Definition convert_pptx_to_pdf (w : world) : outcome (option str) :=
  lo_resolve w ;;;
  if negb (pptx_is_file w) then Ok None
  else match find_libreoffice w with
  | None => Ok None
  | Some _ =>
      lo_mkdir w ;;;
      lo_tempdir w ;;;
      ran <- try_except_of [CalledProcessError; TimeoutExpired; FileNotFoundError]
               (lo_subprocess_run w ;;; Ok true) (fun _ => Ok false) ;;
      if negb ran then Ok None
      else if negb (lo_src_pdf_is_file w) then Ok None
      else dest <- lo_copy2 w ;; Ok (Some dest)
  end.

(** *** pdf_metadata.py *)

Definition set_pdf_metadata (w : world) : outcome unit :=
  imported <- try_except_of [ImportError]
                (meta_import_fitz w ;;; Ok true) (fun _ => Ok false) ;;
  if negb imported then Ok tt
  else if negb (pdf_is_file w) then Ok tt
  else try_except (meta_stamp w) (fun _ => Ok tt).

Definition get_pdf_page_count (w : world) : outcome Z :=
  imported <- try_except_of [ImportError]
                (count_import_fitz w ;;; Ok true) (fun _ => Ok false) ;;
  if negb imported then Ok 0
  else if negb (pdf_is_file w) then Ok 0
  else try_except (count_open_len w) (fun _ => Ok 0).

(** *** pptx_utils.py *)

Definition _notes_text (s : slide) : str :=
  if negb (has_notes_slide s) then []
  else match notes_text s with
       | Ok (Some t) => strip t     (* (tf.text or empty).strip() *)
       | Ok None => strip []
       | Raise _ => []
       end.

Definition get_speaker_notes (w : world) : list str :=
  if negb (pptx_is_file w) then []
  else match notes_presentation w with
       | Ok slides => map _notes_text slides
       | Raise _ => []
       end.

Definition get_slide_count (w : world) : Z :=
  if negb (pptx_is_file w) then 0
  else match count_presentation w with
       | Ok slides => len slides
       | Raise _ => 0
       end.

(** *** converter.py *)

(** The result dict: keys success, path and error. *)
Record result := Result {
  success : bool;
  path : str;
  error : option str
}.

(** Lines 48-51: pad the notes with empty strings, then cut to
    [slide_count]. *)
Definition normalize_notes (speaker_notes : list str) (slide_count : Z)
  : list str :=
  let speaker_notes :=
    if len speaker_notes <? slide_count
    then speaker_notes ++ times [] (slide_count - len speaker_notes)
    else speaker_notes in
  slice_to speaker_notes slide_count.

(** Lines 53-58: the extractor's text, or the empty string on failure. *)
Definition semantic_body (w : world) : str :=
  match markitdown_convert w with
  | Ok (Some t) => strip t
  | Ok None => strip []
  | Raise _ => []
  end.

(** Lines 33-74: the body of the [try] statement. *)
Definition convert_one_try (w : world) (pptx_path : str) : outcome result :=
  pdf_path <- convert_pptx_to_pdf w ;;
  match pdf_path with
  | None =>
      Ok (Result false pptx_path
            (Some (lit "PDF conversion failed (LibreOffice)")))
  | Some _ =>
      set_pdf_metadata w ;;;
      let slide_count := get_slide_count w in
      slide_count <- (if slide_count <=? 0 then get_pdf_page_count w
                      else Ok slide_count) ;;
      if slide_count <=? 0 then
        Ok (Result false pptx_path
              (Some (lit "No slides found or invalid file")))
      else
        let speaker_notes :=
          normalize_notes (get_speaker_notes w) slide_count in
        let full_md_body := semantic_body w in
        let body_sections :=
          split_markdown_by_slides full_md_body slide_count in
        let md_content :=
          build_markdown (stem w) slide_count speaker_notes body_sections
            (Some (stem w)) in
        write_text w md_content ;;;
        Ok (Result true pptx_path None)
  end.

(** [markitdown_instance] is [None] or an existing instance. *)
Definition convert_one (w : world) (markitdown_instance : option unit)
  : outcome result :=
  pptx_path <- resolve_pptx w ;;
  _output_dir <- resolve_output_dir w ;;
  _md <- (match markitdown_instance with
          | None => new_markitdown w
          | Some md => Ok md
          end) ;;
  try_except (convert_one_try w pptx_path)
    (fun e => Ok (Result false pptx_path (Some (exc_str e)))).

(** *** worker.py *)

(** [_worker_markitdown] is the module-level instance ([None] until
    [_init_worker] has run in this process); [pptx_path] is the argument
    as passed, unresolved. *)
Definition convert_one_worker (w : world) (_worker_markitdown : option unit)
    (pptx_path : str) : outcome result :=
  try_except (convert_one w _worker_markitdown)
    (fun e => Ok (Result false pptx_path (Some (exc_str e)))).

(** The invariant of a result record: no error on success, an error
    string on failure. *)
Definition result_invariant (r : result) : Prop :=
  (success r = true -> error r = None)
  /\ (success r = false -> exists msg, error r = Some msg).

(** A failure record carries an error string. *)
Definition failure_reported (r : result) : Prop :=
  success r = false -> exists msg, error r = Some msg.

(** A one-slide presentation deck.pptx that converts without trouble,
    apart from three calls left open: constructing the extractor, running
    the renderer, and writing the Markdown file. *)
Definition sample_world (ctor run : outcome unit)
    (write : str -> outcome unit) : world :=
  {| resolve_pptx := Ok (lit "/in/deck.pptx");
     resolve_output_dir := Ok (lit "/out");
     stem := lit "deck";
     new_markitdown := ctor;
     markitdown_convert := Ok (Some (lit "# Title"));
     lo_resolve := Ok tt;
     pptx_is_file := true;
     find_libreoffice := Some (lit "/usr/bin/soffice");
     lo_mkdir := Ok tt;
     lo_tempdir := Ok tt;
     lo_subprocess_run := run;
     lo_src_pdf_is_file := true;
     lo_copy2 := Ok (lit "/out/deck.pdf");
     meta_import_fitz := Ok tt;
     pdf_is_file := true;
     meta_stamp := Ok tt;
     count_import_fitz := Ok tt;
     count_open_len := Ok 1;
     count_presentation := Ok [Slide true (Ok (Some (lit "note")))];
     notes_presentation := Ok [Slide true (Ok (Some (lit "note")))];
     write_text := write |}.

End Converter.

(* ===================================================================== *)
(** ** src/main.py: the batch scheduler *)
(* ===================================================================== *)

Module Batch.
Import PyStr Py Converter.
Open Scope Z_scope.

(** One path yielded by [root.rglob]: whether it is a file, its
    lower-cased suffix, and its resolved form. *)
Record dir_entry := DirEntry {
  entry_is_file : bool;
  entry_suffix_lower : str;
  entry_resolved : str
}.

(** What the environment answers during one batch run. *)
Record batch_world := BatchWorld {
  input_is_dir : bool;                          (* input_path.is_dir() *)
  rglob_all : outcome (list dir_entry);         (* root.rglob, resolve *)
  sorted_paths : list str -> list str;          (* sorted() on Path objects *)
  renderer : option str;                        (* _find_libreoffice() *)
  output_base_resolved : outcome str;           (* resolve(), then mkdir *)
  cpu_count : option Z;                         (* os.cpu_count() *)
  parent_relative_to : str -> option str;       (* None: ValueError *)
  path_join : str -> str -> str;                (* output_base / rel *)
  file_world : str -> world;                    (* per submitted file *)
  future_error : str -> option exc;             (* fut.result() raising *)
  as_completed : list (str * str) -> list (str * str);
  system_limits : outcome unit;                 (* _check_system_limits() *)
  platform_win32 : bool;                        (* sys.platform is win32 *)
  pool_start : outcome unit;                    (* the rest of the set-up *)
  submit_error : str -> option exc              (* executor.submit raising *)
}.

(** What a run does that the outside can observe. *)
Inductive event :=
| EvCheckRenderer                       (* check_libreoffice_installed() *)
| EvPool (max_workers : Z)              (* the executor is created *)
| EvConvert (pptx_path out_dir : str)   (* a task is handed to the pool, to
                                           run convert_one_worker on it *)
| EvProgress (completed total : Z) (r : option result).

(** A computation of the scheduler: the events so far and how it ended. *)
Definition run (A : Type) : Type := list event * outcome A.

Definition ret {A} (a : A) : run A := ([], Ok a).
Definition raise {A} (e : exc) : run A := ([], Raise e).
Definition emit (ev : event) : run unit := ([ev], Ok tt).
Definition lift {A} (m : outcome A) : run A := ([], m).

Definition rbind {A B} (m : run A) (f : A -> run B) : run B :=
  match m with
  | (evs, Ok a) => let (evs', r) := f a in (evs ++ evs', r)
  | (evs, Raise e) => (evs, Raise e)
  end.

Notation "x <~ m ;; k" := (rbind m (fun x => k))
  (at level 61, m at next level, right associativity).
Notation "m ~;; k" := (rbind m (fun _ => k))
  (at level 61, right associativity).

Definition POWERPOINT_EXTENSIONS : list str :=
  map lit [".pptx"; ".ppt"; ".pot"; ".potx"; ".pps"; ".ppsx"]%string.

Definition str_eqb (a b : str) : bool :=
  if list_eq_dec N.eq_dec a b then true else false.

Definition find_powerpoint_files (w : batch_world) : outcome (list str) :=
  Py.bind (rglob_all w) (fun entries =>
    Ok (sorted_paths w
          (map entry_resolved
             (filter (fun p => entry_is_file p
                               && existsb (str_eqb (entry_suffix_lower p))
                                    POWERPOINT_EXTENSIONS)
                     entries)))).

(** libreoffice.py: [check_libreoffice_installed], first component. *)
Definition check_libreoffice_installed (w : batch_world) : run bool :=
  emit EvCheckRenderer ~;;
  ret (match renderer w with Some _ => true | None => false end).

(** Lines 64-65. [os.cpu_count() or 2]: [None] and [0] both give 2. *)
Definition max_workers (cpu : option Z) (file_count : Z) : Z :=
  let cpus := match cpu with
              | Some c => if c =? 0 then 2 else c
              | None => 2
              end in
  Z.min (Z.max 1 (cpus - 1)) file_count.

(** Lines 67-76: the (path, output directory) pair of every file. *)
Definition make_tasks (w : batch_world) (mirror_structure : bool)
    (output_base : str) (pptx_files : list str) : list (str * str) :=
  if mirror_structure && input_is_dir w then
    map (fun p => (p, match parent_relative_to w p with
                      | Some rel => path_join w output_base rel
                      | None => output_base
                      end))
        pptx_files
  else map (fun p => (p, output_base)) pptx_files.

(** The state of the collection loop. *)
Record tally := Tally {
  success_count : Z;
  failed : list (str * option str);
  completed : Z
}.

(** Line 83: creating the executor. [ProcessPoolExecutor] checks the
    system's limits, then refuses a size that is not positive and, on
    Windows, one above 61. *)
Definition create_pool (w : batch_world) (workers : Z) : run unit :=
  lift (system_limits w) ~;;
  if workers <=? 0 then
    raise (Exc ValueError (lit "max_workers must be greater than 0"))
  else if platform_win32 w && (61 <? workers) then
    raise (Exc ValueError (lit "max_workers must be <= 61"))
  else lift (pool_start w) ~;; emit (EvPool workers).

(** Line 84: every task is submitted, in order, before any result is
    looked at. A submitted task runs in a worker whether or not the loop
    below reaches its future; a submit that raises (the pool broke in the
    meantime) ends the run. *)
Fixpoint submit_all (w : batch_world) (tasks : list (str * str))
  : run unit :=
  match tasks with
  | [] => ret tt
  | (pptx_path, out_dir) :: rest =>
      match submit_error w pptx_path with
      | Some e => raise e
      | None => emit (EvConvert pptx_path out_dir) ~;; submit_all w rest
      end
  end.

(** [fut.result()]: the worker's return value, unless the future failed.
    The worker process holds the instance [_init_worker] created. *)
Definition future_result (w : batch_world) (task : str * str)
  : outcome result :=
  let pptx_path := fst task in
  match future_error w pptx_path with
  | Some e => Raise e
  | None =>
      convert_one_worker (file_world w pptx_path) (Some tt) pptx_path
  end.

(** Lines 86-98: one iteration of the loop over completed futures. *)
Definition collect_one (w : batch_world)
    (progress_callback : option (Z -> Z -> option result -> outcome unit))
    (total : Z) (t : tally) (task : str * str) : run tally :=
  let pptx_path := fst task in
  let '(t1, result) :=
    match future_result w task with
    | Ok r =>
        if success r
        then (Tally (success_count t + 1) (failed t) (completed t), Some r)
        else (Tally (success_count t) (failed t ++ [(path r, error r)])
                (completed t), Some r)
    | Raise e =>
        (Tally (success_count t)
           (failed t ++ [(pptx_path, Some (exc_str e))]) (completed t), None)
    end in
  let t2 := Tally (success_count t1) (failed t1) (completed t1 + 1) in
  match progress_callback with
  | Some cb =>
      emit (EvProgress (completed t2) total result) ~;;
      lift (cb (completed t2) total result) ~;; ret t2
  | None => ret t2
  end.

Fixpoint collect (w : batch_world)
    (progress_callback : option (Z -> Z -> option result -> outcome unit))
    (total : Z) (t : tally) (done : list (str * str)) : run tally :=
  match done with
  | [] => ret t
  | task :: rest =>
      t' <~ collect_one w progress_callback total t task ;;
      collect w progress_callback total t' rest
  end.

(** Line 54: the discovered input set. *)
Definition discover (w : batch_world) (input_path : str)
  : outcome (list str) :=
  if input_is_dir w then find_powerpoint_files w else Ok [input_path].

Definition run_conversion (w : batch_world) (input_path : str)
    (mirror_structure : bool)
    (progress_callback : option (Z -> Z -> option result -> outcome unit))
  : run (Z * list (str * option str)) :=
  pptx_files <~ lift (discover w input_path) ;;
  if negb (truthy pptx_files) then ret (0, [])
  else
    ok <~ check_libreoffice_installed w ;;
    if negb ok then
      raise (Exc RuntimeError
               (lit "LibreOffice was not found. Please install it or set LIBREOFFICE_PATH."))
    else
      output_base <~ lift (output_base_resolved w) ;;
      let workers := max_workers (cpu_count w) (len pptx_files) in
      let tasks := make_tasks w mirror_structure output_base pptx_files in
      let total := len tasks in
      create_pool w workers ~;;
      submit_all w tasks ~;;
      t <~ collect w progress_callback total (Tally 0 [] 0)
             (as_completed w tasks) ;;
      ret (success_count t, failed t).

(** The directory part of a path written with slashes. *)
Definition sample_parent (p : str) : str :=
  let fix drop_name (r : str) : str :=
    match r with
    | [] => []
    | c :: rest => if (c =? 47)%N then rest else drop_name rest
    end in
  rev (drop_name (rev p)).

(** [q.relative_to(root)] for paths written with slashes: the dot for
    [root] itself, the rest of the path below it, nothing elsewhere. *)
Definition sample_relative_to (root q : str) : option str :=
  if str_eqb q root then Some (lit ".")
  else MarkdownBuilder.strip_prefix (root ++ lit "/") q.

(** [a / b] for such paths; joining the dot changes nothing. *)
Definition sample_join (a b : str) : str :=
  if str_eqb b (lit ".") then a else a ++ lit "/" ++ b.

(** The directory tree /in given by its [rglob] listing, on a Linux
    machine with four processors and the renderer installed; every file in
    it converts like [sample_world]. *)
Definition sample_batch (entries : list dir_entry) : batch_world :=
  {| input_is_dir := true;
     rglob_all := Ok entries;
     sorted_paths := fun ps => ps;
     renderer := Some (lit "/usr/bin/soffice");
     output_base_resolved := Ok (lit "/out");
     cpu_count := Some 4;
     parent_relative_to :=
       fun p => sample_relative_to (lit "/in") (sample_parent p);
     path_join := sample_join;
     file_world := fun _ => sample_world (Ok tt) (Ok tt) (fun _ => Ok tt);
     future_error := fun _ => None;
     as_completed := fun ts => ts;
     system_limits := Ok tt;
     platform_win32 := false;
     pool_start := Ok tt;
     submit_error := fun _ => None |}.

End Batch.

(* ===================================================================== *)
(** ** src/src/libreoffice.py: locating the renderer *)
(* ===================================================================== *)

Module LibreOffice.
Import PyStr.

(** What the platform answers while [_find_libreoffice] searches. *)
Record lo_env := LoEnv {
  win32 : bool;                    (* sys.platform is win32 *)
  LIBREOFFICE_PATH : option str;   (* os.environ.get of that variable *)
  isabs : str -> bool;             (* os.path.isabs *)
  isfile : str -> bool;            (* os.path.isfile *)
  which : str -> option str        (* shutil.which *)
}.

(** Lines 13-23: the executable names and the candidate paths. *)
Definition names (env : lo_env) : list str :=
  if win32 env then [lit "soffice.exe"; lit "soffice.com"]
  else [lit "soffice"; lit "libreoffice"].

Definition candidates (env : lo_env) : list (option str) :=
  if win32 env then
    [LIBREOFFICE_PATH env;
     Some (lit "C:\Program Files\LibreOffice\program\soffice.exe");
     Some (lit "C:\Program Files (x86)\LibreOffice\program\soffice.exe")]
  else [LIBREOFFICE_PATH env; Some (lit "soffice"); Some (lit "libreoffice")].

(** [shutil.which(c)] followed by the test [if found]. *)
Definition which_found (env : lo_env) (c : str) : option str :=
  match which env c with
  | Some found => if truthy found then Some found else None
  | None => None
  end.

(** Lines 25-32: the loop over the candidates. *)
Fixpoint scan_candidates (env : lo_env) (cs : list (option str))
  : option str :=
  match cs with
  | [] => None
  | c :: rest =>
      match c with
      | None => scan_candidates env rest
      | Some c =>
          if negb (truthy c) then scan_candidates env rest
          else if isabs env c && isfile env c then Some c
          else match which_found env c with
               | Some found => Some found
               | None => scan_candidates env rest
               end
      end
  end.

(** Lines 33-36: the loop over the names. *)
Fixpoint scan_names (env : lo_env) (ns : list str) : option str :=
  match ns with
  | [] => None
  | name :: rest =>
      match which_found env name with
      | Some found => Some found
      | None => scan_names env rest
      end
  end.

Definition _find_libreoffice (env : lo_env) : option str :=
  match scan_candidates env (candidates env) with
  | Some path => Some path
  | None => scan_names env (names env)
  end.

Definition not_found_message : str :=
  text ["LibreOffice was not found. SlideToObsidian requires LibreOffice for PDF export.";
        "  - Install LibreOffice: https://www.libreoffice.org/download";
        "  - Or set LIBREOFFICE_PATH to the path of soffice (e.g. soffice.exe on Windows)."]%string.

Definition check_libreoffice_installed (env : lo_env) : bool * str :=
  match _find_libreoffice env with
  | None => (false, not_found_message)
  | Some path => (true, path)
  end.

(** A Linux machine with soffice on the search path and the variable
    pointing at a private build. *)
Definition sample_env (override : option str) : lo_env :=
  {| win32 := false;
     LIBREOFFICE_PATH := override;
     isabs := fun p => match p with 47%N :: _ => true | _ => false end;
     isfile := fun p => match p with 47%N :: _ => true | _ => false end;
     which := fun c => match c with
                       | 115%N :: _ => Some (lit "/usr/bin/soffice")
                       | _ => None
                       end |}.

End LibreOffice.

(* ===================================================================== *)
(** ** src/main.py: the command line *)
(* ===================================================================== *)

Module Cli.
Import PyStr Py Converter Batch.
Open Scope Z_scope.

(** The parsed arguments and what the file system answers about the
    input path. The output directory enters a run through
    [output_base_resolved] of the batch world. *)
Record cli := CliArgs {
  arg_gui : bool;                   (* args.gui *)
  arg_input : option str;           (* args.input *)
  arg_no_mirror : bool;             (* args.no_mirror *)
  run_app : outcome Z;              (* gui.run_app() *)
  input_resolved : outcome str;     (* args.input.resolve() *)
  output_base : outcome str;        (* line 145: the output directory *)
  input_exists : bool;
  input_is_file : bool;
  input_suffix_lower : str;         (* input_path.suffix.lower() *)
  on_progress : Z -> Z -> option result -> outcome unit  (* the tqdm bar *)
}.

(** How [main] ends: it returns an exit code, argparse ends the process
    through [parser.error], or an exception leaves it. *)
Inductive main_end :=
| Returns (code : Z)
| ParserError
| Propagates (e : exc).

Definition main (c : cli) (w : batch_world) : list event * main_end :=
  if arg_gui c then
    ([], match run_app c with
         | Ok code => Returns code
         | Raise e => Propagates e
         end)
  else
    match arg_input c with
    | None => ([], ParserError)
    | Some _ =>
        match input_resolved c with
        | Raise e => ([], Propagates e)
        | Ok input_path =>
            if negb (input_exists c) then ([], Returns 1)
            else if input_is_file c
                    && negb (existsb (str_eqb (input_suffix_lower c))
                               POWERPOINT_EXTENSIONS)
            then ([], Returns 1)
            else
              match output_base c with
              | Raise e => ([], Propagates e)
              | Ok _ =>
                  let mirror_structure :=
                    if input_is_dir w then negb (arg_no_mirror c)
                    else false in
                  match run_conversion w input_path mirror_structure
                          (Some (on_progress c)) with
                  | (evs, Ok (_, failed)) =>
                      (evs, Returns (if truthy failed then 1 else 0))
                  | (evs, Raise e) =>
                      if exc_class_eqb (exc_cls e) RuntimeError
                      then (evs, Returns 1)
                      else (evs, Propagates e)
                  end
              end
        end
    end.

End Cli.

(* ===================================================================== *)
(** ** Notions the properties below are stated with *)
(* ===================================================================== *)

Module Notions.
Import PyStr MarkdownBuilder Py Converter Batch Cli.
Open Scope Z_scope.

(** A string that [lstrip] leaves as it is. *)
Definition left_trimmed (s : str) : Prop := lstrip s = s.

(** Whether some newline of [s] is followed by a heading marker. *)
Fixpoint has_heading_break (s : str) : bool :=
  match s with
  | [] => false
  | c :: rest =>
      ((c =? NL)%N && heading_marker rest) || has_heading_break rest
  end.

(** Reading a backslash-escaped text: a backslash stands for the
    character after it. *)
Fixpoint unescape (s : str) : str :=
  match s with
  | [] => []
  | c :: rest =>
      if (c =? BSLASH)%N then
        match rest with
        | d :: rest' => d :: unescape rest'
        | [] => [c]
        end
      else c :: unescape rest
  end.

(** The progress calls of a run, in order: the running count, the total
    and the record passed. *)
Definition progress_calls (evs : list event)
  : list (Z * Z * option result) :=
  flat_map (fun ev => match ev with
                      | EvProgress completed total r => [(completed, total, r)]
                      | _ => []
                      end) evs.

(** The conversions a run started, in order. *)
Definition conversions (evs : list event) : list (str * str) :=
  flat_map (fun ev => match ev with
                      | EvConvert p o => [(p, o)]
                      | _ => []
                      end) evs.

(** The slide count [convert_one] settles on: python-pptx first, the
    page count of the PDF when that gives nothing. *)
Definition resolved_slide_count (w : world) : outcome Z :=
  if get_slide_count w <=? 0 then get_pdf_page_count w
  else Ok (get_slide_count w).

(** A progress callback that never raises (or none at all). *)
Definition quiet (cb : option (Z -> Z -> option result -> outcome unit))
  : Prop :=
  forall f c t r, cb = Some f -> f c t r = Ok tt.

(** The record the future of a task delivers; none when it raised. *)
Definition task_record (w : batch_world) (task : str * str)
  : option result :=
  match future_result w task with
  | Ok r => Some r
  | Raise _ => None
  end.

(** Whether the conversion of a task ended in a success record. *)
Definition succeeded (w : batch_world) (task : str * str) : bool :=
  match task_record w task with
  | Some r => success r
  | None => false
  end.

(** What a task that did not succeed adds to the failed list: the path
    and error of its failure record, or the task's path and the text of
    the exception its future raised. *)
Definition failure_entry (w : batch_world) (task : str * str)
  : list (str * option str) :=
  match future_result w task with
  | Ok r => if success r then [] else [(path r, error r)]
  | Raise e => [(fst task, Some (exc_str e))]
  end.

(** The executor can be created with [workers] workers and accepts every
    task. *)
Definition pool_ready (w : batch_world) (workers : Z) : Prop :=
  system_limits w = Ok tt
  /\ (platform_win32 w = false \/ workers <= 61)
  /\ pool_start w = Ok tt
  /\ forall p, submit_error w p = None.

(** An entry of the failed list that carries an error string. *)
Definition has_message (entry : str * option str) : Prop :=
  exists msg, snd entry = Some msg.

(** A single presentation given on its own, on a machine without the
    renderer. *)
Definition no_renderer_batch : batch_world :=
  {| input_is_dir := false;
     rglob_all := Ok [];
     sorted_paths := fun ps => ps;
     renderer := None;
     output_base_resolved := Ok (lit "/out");
     cpu_count := Some 4;
     parent_relative_to := fun _ => None;
     path_join := sample_join;
     file_world := fun _ => sample_world (Ok tt) (Ok tt) (fun _ => Ok tt);
     future_error := fun _ => None;
     as_completed := fun ts => ts;
     system_limits := Ok tt;
     platform_win32 := false;
     pool_start := Ok tt;
     submit_error := fun _ => None |}.

(** One presentation at [p], with stem [name], converted into [out]; the
    renderer process ends as [run] says. *)
Definition deck_world (p out name : str) (run : outcome unit) : world :=
  {| resolve_pptx := Ok p;
     resolve_output_dir := Ok out;
     stem := name;
     new_markitdown := Ok tt;
     markitdown_convert := Ok (Some (lit "# Title"));
     lo_resolve := Ok tt;
     pptx_is_file := true;
     find_libreoffice := Some (lit "/usr/bin/soffice");
     lo_mkdir := Ok tt;
     lo_tempdir := Ok tt;
     lo_subprocess_run := run;
     lo_src_pdf_is_file := true;
     lo_copy2 := Ok (out ++ lit "/" ++ name ++ lit ".pdf");
     meta_import_fitz := Ok tt;
     pdf_is_file := true;
     meta_stamp := Ok tt;
     count_import_fitz := Ok tt;
     count_open_len := Ok 1;
     count_presentation := Ok [Slide false (Ok None)];
     notes_presentation := Ok [Slide false (Ok None)];
     write_text := fun _ => Ok tt |}.

(** The directory /in with a.pptx, sub/b.ppt and a text file, on a Linux
    machine with eight processors. The renderer times out on b.ppt, and
    b.ppt is the first to complete. *)
Definition mixed_decks : batch_world :=
  {| input_is_dir := true;
     rglob_all := Ok [DirEntry true (lit ".pptx") (lit "/in/a.pptx");
                      DirEntry true (lit ".txt") (lit "/in/notes.txt");
                      DirEntry true (lit ".ppt") (lit "/in/sub/b.ppt")];
     sorted_paths := fun ps => ps;
     renderer := Some (lit "/usr/bin/soffice");
     output_base_resolved := Ok (lit "/out");
     cpu_count := Some 8;
     parent_relative_to :=
       fun p => sample_relative_to (lit "/in") (sample_parent p);
     path_join := sample_join;
     file_world :=
       fun p => if str_eqb p (lit "/in/sub/b.ppt")
                then deck_world p (lit "/out/sub") (lit "b")
                       (Raise (Exc TimeoutExpired (lit "timed out")))
                else deck_world p (lit "/out") (lit "a") (Ok tt);
     future_error := fun _ => None;
     as_completed := fun ts => rev ts;
     system_limits := Ok tt;
     platform_win32 := false;
     pool_start := Ok tt;
     submit_error := fun _ => None |}.

(** The command line [main.py /in]. *)
Definition two_decks_cli : cli :=
  {| arg_gui := false;
     arg_input := Some (lit "/in");
     arg_no_mirror := false;
     run_app := Ok 0;
     input_resolved := Ok (lit "/in");
     output_base := Ok (lit "/work/out");
     input_exists := true;
     input_is_file := false;
     input_suffix_lower := [];
     on_progress := fun _ _ _ => Ok tt |}.

(** The command line [main.py /in -o /out] on the directory
    [mixed_decks]. *)
Definition mixed_decks_cli : cli :=
  {| arg_gui := false;
     arg_input := Some (lit "/in");
     arg_no_mirror := false;
     run_app := Ok 0;
     input_resolved := Ok (lit "/in");
     output_base := Ok (lit "/out");
     input_exists := true;
     input_is_file := false;
     input_suffix_lower := [];
     on_progress := fun _ _ _ => Ok tt |}.

(** Lines 48-66: the Markdown text [convert_one] writes for [n] slides. *)
Definition markdown_content (w : world) (n : Z) : str :=
  build_markdown (stem w) n
    (normalize_notes (get_speaker_notes w) n)
    (split_markdown_by_slides (semantic_body w) n)
    (Some (stem w)).

(** A legacy presentation on a machine without pymupdf: the renderer
    produces the PDF, python-pptx cannot read the file, and the extractor
    does not support it. *)
Definition legacy_world : world :=
  {| resolve_pptx := Ok (lit "/in/old.ppt");
     resolve_output_dir := Ok (lit "/out");
     stem := lit "old";
     new_markitdown := Ok tt;
     markitdown_convert := Raise (Exc OtherException (lit "unsupported"));
     lo_resolve := Ok tt;
     pptx_is_file := true;
     find_libreoffice := Some (lit "/usr/bin/soffice");
     lo_mkdir := Ok tt;
     lo_tempdir := Ok tt;
     lo_subprocess_run := Ok tt;
     lo_src_pdf_is_file := true;
     lo_copy2 := Ok (lit "/out/old.pdf");
     meta_import_fitz := Raise (Exc ImportError (lit "No module named fitz"));
     pdf_is_file := true;
     meta_stamp := Ok tt;
     count_import_fitz := Raise (Exc ImportError (lit "No module named fitz"));
     count_open_len := Ok 3;
     count_presentation := Raise (Exc OtherException (lit "not a zip file"));
     notes_presentation := Raise (Exc OtherException (lit "not a zip file"));
     write_text := fun _ => Ok tt |}.

End Notions.

Import PyStr MarkdownBuilder.
Open Scope Z_scope.
Import Py Converter Batch Notions Cli.
Local Open Scope string_scope.
Local Open Scope list_scope.
Local Open Scope Z_scope.

(* ===================================================================== *)
(** ** Facts about the list and string primitives *)
(* ===================================================================== *)

Section ListFacts.
Context {A : Type}.
Implicit Types (l : list A) (k : Z).

Lemma len_nonneg l : 0 <= len l.
Proof. unfold len. lia. Qed.

Lemma len_app l1 l2 : len (l1 ++ l2) = len l1 + len l2.
Proof. unfold len. rewrite length_app. lia. Qed.

Lemma len_times (x : A) k : 0 <= k -> len (times x k) = k.
Proof. intros Hk. unfold len, times. rewrite repeat_length. lia. Qed.

Lemma times_nonpos (x : A) k : k <= 0 -> times x k = [].
Proof.
  intros Hk. unfold times.
  replace (Z.to_nat k) with O by lia. reflexivity.
Qed.

Lemma slice_to_firstn l k :
  0 <= k -> slice_to l k = firstn (Z.to_nat k) l.
Proof.
  intros Hk. unfold slice_to.
  destruct (k <? 0) eqn:E; [apply Z.ltb_lt in E; lia | reflexivity].
Qed.

Lemma len_slice_to l k : 0 <= k <= len l -> len (slice_to l k) = k.
Proof.
  intros [H0 Hk]. rewrite slice_to_firstn by assumption.
  unfold len in *. rewrite length_firstn. lia.
Qed.

Lemma slice_to_all l k : len l <= k -> slice_to l k = l.
Proof.
  intros Hk. pose proof (len_nonneg l).
  rewrite slice_to_firstn by lia.
  apply firstn_all2. unfold len in *. lia.
Qed.

Lemma slice_to_app l1 l2 k :
  0 <= k <= len l1 -> slice_to (l1 ++ l2) k = slice_to l1 k.
Proof.
  intros [H0 Hk]. rewrite !slice_to_firstn by assumption.
  rewrite firstn_app.
  replace (Z.to_nat k - List.length l1)%nat with O
    by (unfold len in *; lia).
  simpl. apply app_nil_r.
Qed.
End ListFacts.

Lemma len_map {A B} (f : A -> B) (l : list A) : len (map f l) = len l.
Proof. unfold len. now rewrite length_map. Qed.

Lemma len_range (n : Z) : 0 <= n -> len (range n) = n.
Proof.
  intros Hn. unfold range, len. rewrite length_map, length_seq. lia.
Qed.

(** The padding loop stops, and appends exactly the missing entries. *)
Lemma pad_while_spec (fuel : nat) :
  forall (result : list str) (n : Z),
    (Z.to_nat (n - len result) <= fuel)%nat ->
    pad_while fuel result n = result ++ times [] (n - len result).
Proof.
  induction fuel as [|fuel IH]; intros result n Hfuel; simpl.
  - rewrite times_nonpos by lia. now rewrite app_nil_r.
  - destruct (len result <? n) eqn:E.
    + apply Z.ltb_lt in E.
      rewrite IH by (rewrite len_app; unfold len at 2; simpl; lia).
      rewrite len_app. unfold len at 2. simpl.
      rewrite <- app_assoc. f_equal. unfold times.
      replace (Z.to_nat (n - len result))
        with (S (Z.to_nat (n - (len result + 1)))) by lia.
      reflexivity.
    + apply Z.ltb_ge in E. rewrite times_nonpos by lia.
      now rewrite app_nil_r.
Qed.

(** *** Stripping *)

Lemma lstrip_all_space (s : str) : all_space s -> lstrip s = [].
Proof.
  unfold all_space. induction s as [|c s IH]; simpl; [reflexivity|].
  intros H. apply andb_prop in H as [Hc Hs]. rewrite Hc. auto.
Qed.

Lemma strip_all_space (s : str) : all_space s -> strip s = [].
Proof.
  intros H. unfold strip. now rewrite lstrip_all_space.
Qed.

(* ===================================================================== *)
(** ** The segmenter *)
(* ===================================================================== *)

Lemma len_intro_case (parts : list str) (n : Z) :
  0 <= n -> len (intro_case parts n) = n.
Proof.
  intros Hn. unfold intro_case. now rewrite len_map, len_range.
Qed.

Lemma header_case_spec (parts : list str) (n : Z) :
  0 <= n ->
  header_case parts n
  = map strip (firstn (Z.to_nat n) parts) ++ times [] (n - len parts).
Proof.
  intros Hn. unfold header_case.
  destruct (len parts >=? n) eqn:E.
  - apply Z.geb_le in E. rewrite slice_to_firstn by assumption.
    rewrite times_nonpos by lia. now rewrite app_nil_r.
  - rewrite Z.geb_leb in E. apply Z.leb_gt in E.
    rewrite pad_while_spec by lia. rewrite len_map.
    rewrite firstn_all2 by (unfold len in *; lia). reflexivity.
Qed.

Lemma len_header_case (parts : list str) (n : Z) :
  0 <= n -> len (header_case parts n) = n.
Proof.
  intros Hn. rewrite header_case_spec by assumption.
  rewrite len_app, len_map. pose proof (len_nonneg parts).
  destruct (Z_le_gt_dec n (len parts)).
  - rewrite times_nonpos by lia. unfold len in *.
    rewrite length_firstn. simpl. lia.
  - rewrite len_times by lia. unfold len in *.
    rewrite length_firstn. lia.
Qed.

(** The length of the segmenter's result, whatever the blob. *)
Lemma len_split_markdown_by_slides (blob : str) (n : Z) :
  1 <= n -> len (split_markdown_by_slides blob n) = n.
Proof.
  intros Hn. unfold split_markdown_by_slides.
  assert (E0 : (n <=? 0) = false) by (apply Z.leb_gt; lia).
  assert (E1 : (n =? 0) = false) by (apply Z.eqb_neq; lia).
  rewrite E0, E1. simpl negb. rewrite orb_false_r.
  destruct (negb (truthy blob)).
  - rewrite len_times; lia.
  - cbv zeta. destruct (negb (truthy (strip blob))).
    + apply len_times; lia.
    + repeat match goal with
             | |- context [if ?b then _ else _] => destruct b
             end;
        first [apply len_intro_case | apply len_header_case]; lia.
Qed.

(** The pattern on small inputs: one to six hashes, then whitespace. *)
Example heading_marker_examples :
  heading_marker (lit "# a") = true
  /\ heading_marker (lit "###### a") = true
  /\ heading_marker (lit "####### a") = false
  /\ heading_marker (lit "#a") = false
  /\ heading_marker (lit "#") = false
  /\ heading_marker (text ["##"; "x"]) = true.
Proof. repeat split; reflexivity. Qed.

(** The split keeps the marker with the part it opens and cuts only at
    newlines that a marker follows. *)
Example re_split_headings_example :
  re_split_headings (text ["intro"; "more"; "## h"; "#hashtag"; "# k"])
  = [text ["intro"; "more"]; text ["## h"; "#hashtag"]; lit "# k"].
Proof. reflexivity. Qed.

(** More parts than slides with leading body text: the header case, with
    the excess dropped. *)
Example split_more_parts_than_slides :
  split_markdown_by_slides (text ["intro "; "# a"; "# b"]) 2
  = [lit "intro"; lit "# a"].
Proof. reflexivity. Qed.

(** C1, as stated: length [N] for [N >= 1] (all empty on a blank blob) and
    the empty sequence for every [N <= 0]. The code returns one empty string
    for a negative [N]. *)
Lemma C1_counterexample :
  ~ (forall (blob : str) (n : Z),
        (1 <= n ->
         len (split_markdown_by_slides blob n) = n
         /\ (all_space blob -> split_markdown_by_slides blob n = times [] n))
        /\ (n <= 0 -> split_markdown_by_slides blob n = [])).
Proof.
  intros H. destruct (H [] (-1)) as [_ H0].
  specialize (H0 ltac:(lia)). vm_compute in H0. discriminate H0.
Qed.

(** C1 (amended): for every blob, the segmenter returns exactly [N] strings
    when [N >= 1], all of them empty when the blob is empty or only
    whitespace; it returns the empty sequence when [N = 0] and the
    one-element sequence holding the empty string when [N < 0]. *)
Theorem C1_segmenter_length (blob : str) (n : Z) :
  (1 <= n ->
   len (split_markdown_by_slides blob n) = n
   /\ (all_space blob -> split_markdown_by_slides blob n = times [] n))
  /\ (n = 0 -> split_markdown_by_slides blob n = [])
  /\ (n < 0 -> split_markdown_by_slides blob n = [[]]).
Proof.
  split; [|split].
  - intros Hn. split; [now apply len_split_markdown_by_slides|].
    intros Hblank. unfold split_markdown_by_slides.
    replace (n <=? 0) with false by (symmetry; apply Z.leb_gt; lia).
    replace (n =? 0) with false by (symmetry; apply Z.eqb_neq; lia).
    rewrite orb_false_r. simpl negb at 2.
    destruct (negb (truthy blob)).
    + now rewrite Z.max_r by lia.
    + cbv zeta. now rewrite strip_all_space.
  - intros ->. unfold split_markdown_by_slides.
    now rewrite orb_true_r.
  - intros Hn. unfold split_markdown_by_slides.
    replace (n <=? 0) with true by (symmetry; apply Z.leb_le; lia).
    replace (n =? 0) with false by (symmetry; apply Z.eqb_neq; lia).
    rewrite orb_true_r. simpl negb. now rewrite Z.max_l by lia.
Qed.

Lemma C1_segmenter_length_witness :
  len (split_markdown_by_slides (text ["intro"; "# one"; "# two"]) 5) = 5
  /\ split_markdown_by_slides (lit "   ") 2 = [[]; []]
  /\ split_markdown_by_slides (lit "x") 0 = []
  /\ split_markdown_by_slides (lit "x") (-3) = [[]].
Proof.
  split; [|split; [|split]].
  - apply (C1_segmenter_length (text ["intro"; "# one"; "# two"]) 5). lia.
  - apply (C1_segmenter_length (lit "   ") 2); [lia | reflexivity].
  - apply (C1_segmenter_length (lit "x") 0). reflexivity.
  - apply (C1_segmenter_length (lit "x") (-3)). lia.
Defined.

(** The inputs of the two segmenter scenarios. *)
Example scenario3_blob_eq :
  text ["Intro text"; "# Slide One"; "body1"; "# Slide Two"; "body2"]
  = lit "Intro text" ++ [NL] ++ lit "# Slide One" ++ [NL] ++ lit "body1"
    ++ [NL] ++ lit "# Slide Two" ++ [NL] ++ lit "body2".
Proof. reflexivity. Qed.

(** C4, as stated: the scenario outputs with the heading markers removed.
    The code keeps the markers. *)
Lemma C4_counterexample :
  ~ (split_markdown_by_slides
       (text ["Intro text"; "# Slide One"; "body1"; "# Slide Two"; "body2"]) 3
     = [lit "Intro text"; text ["Slide One"; "body1"];
        text ["Slide Two"; "body2"]]
     /\ split_markdown_by_slides
          (text ["# A"; "x"; "# B"; "y"; "# C"; "z"; "# D"; "w"]) 2
        = [text ["A"; "x"]; text ["B"; "y"]]).
Proof.
  intros [H _]. vm_compute in H. discriminate H.
Qed.

(** C4 (amended): on the inputs of Scenarios 3 and 4 the segmenter returns
    the parts with their heading markers kept: the intro text followed by
    the two heading-led parts for Scenario 3, and the first two heading-led
    parts for Scenario 4. *)
Theorem C4_scenarios :
  split_markdown_by_slides
    (text ["Intro text"; "# Slide One"; "body1"; "# Slide Two"; "body2"]) 3
  = [lit "Intro text"; text ["# Slide One"; "body1"];
     text ["# Slide Two"; "body2"]]
  /\ split_markdown_by_slides
       (text ["# A"; "x"; "# B"; "y"; "# C"; "z"; "# D"; "w"]) 2
     = [text ["# A"; "x"]; text ["# B"; "y"]].
Proof. split; vm_compute; reflexivity. Qed.

(** C5 fails on the code: with leading body text that ends in a space
    before the first heading, the intro case returns the first part as it
    was cut, trailing space included; every other returned part is
    stripped. *)
Theorem C5_intro_part_not_trimmed :
  split_markdown_by_slides (text ["a "; "# b"]) 2 = [lit "a "; lit "# b"]
  /\ ~ trimmed (lit "a ")
  /\ ~ Forall trimmed (split_markdown_by_slides (text ["a "; "# b"]) 2).
Proof.
  split; [reflexivity|]. split.
  - unfold trimmed. vm_compute. discriminate.
  - intros H. inversion H as [|? ? Hhd _]; subst.
    unfold trimmed in Hhd. vm_compute in Hhd. discriminate Hhd.
Qed.

(* ===================================================================== *)
(** ** Normalising the notes and the sections *)
(* ===================================================================== *)

Lemma normalize_notes_spec (raw : list str) (n : Z) :
  0 <= n ->
  normalize_notes raw n = firstn (Z.to_nat n) raw ++ times [] (n - len raw).
Proof.
  intros Hn. unfold normalize_notes. pose proof (len_nonneg raw) as Hraw.
  destruct (len raw <? n) eqn:E.
  - apply Z.ltb_lt in E.
    rewrite slice_to_all by (rewrite len_app, len_times; lia).
    rewrite firstn_all2 by (unfold len in *; lia). reflexivity.
  - apply Z.ltb_ge in E. rewrite slice_to_firstn by assumption.
    rewrite times_nonpos by lia. now rewrite app_nil_r.
Qed.

Lemma normalize_sections_spec (secs : list str) (n : Z) :
  0 <= n ->
  normalize_sections secs n
  = firstn (Z.to_nat n) secs ++ times [] (n - len secs).
Proof.
  intros Hn. unfold normalize_sections. pose proof (len_nonneg secs) as Hs.
  destruct (len secs >=? n) eqn:E.
  - apply Z.geb_le in E. rewrite slice_to_firstn by assumption.
    rewrite times_nonpos by lia. now rewrite app_nil_r.
  - rewrite Z.geb_leb in E. apply Z.leb_gt in E.
    rewrite slice_to_all by (rewrite len_app, len_times; lia).
    rewrite firstn_all2 by (unfold len in *; lia). reflexivity.
Qed.

Lemma len_firstn_pad (l : list str) (n : Z) :
  0 <= n -> len (firstn (Z.to_nat n) l ++ times [] (n - len l)) = n.
Proof.
  intros Hn. rewrite len_app. pose proof (len_nonneg l).
  destruct (Z_le_gt_dec n (len l)).
  - rewrite times_nonpos by lia. unfold len in *.
    rewrite length_firstn. simpl. lia.
  - rewrite len_times by lia. unfold len in *.
    rewrite length_firstn. lia.
Qed.

(** C6: for a raw annotation list of length [K] and a target [N >= 1], the
    normalised list has length exactly [N]; its first [min K N] entries are
    the raw ones in order; it is the raw list cut to its first [N] entries
    when [K >= N] and the raw list followed by [N - K] empty strings when
    [K < N]. *)
Theorem C6_normalize_notes (raw : list str) (n : Z) :
  1 <= n ->
  len (normalize_notes raw n) = n
  /\ firstn (Z.to_nat (Z.min (len raw) n)) (normalize_notes raw n)
     = firstn (Z.to_nat (Z.min (len raw) n)) raw
  /\ (len raw >= n -> normalize_notes raw n = firstn (Z.to_nat n) raw)
  /\ (len raw < n -> normalize_notes raw n = raw ++ times [] (n - len raw)).
Proof.
  intros Hn. pose proof (len_nonneg raw) as Hraw.
  rewrite normalize_notes_spec by lia.
  split; [apply len_firstn_pad; lia|]. split; [|split].
  - rewrite firstn_app, firstn_firstn.
    replace (Init.Nat.min (Z.to_nat (Z.min (len raw) n)) (Z.to_nat n))
      with (Z.to_nat (Z.min (len raw) n)) by lia.
    replace (Z.to_nat (Z.min (len raw) n)
             - List.length (firstn (Z.to_nat n) raw))%nat with O
      by (rewrite length_firstn; unfold len in *; lia).
    simpl. apply app_nil_r.
  - intros HK. rewrite times_nonpos by lia. apply app_nil_r.
  - intros HK. rewrite firstn_all2 by (unfold len in *; lia). reflexivity.
Qed.

Lemma C6_normalize_notes_witness :
  normalize_notes [lit "a"; lit "b"; lit "c"] 2 = [lit "a"; lit "b"]
  /\ normalize_notes [lit "a"] 3 = [lit "a"; []; []].
Proof.
  split.
  - apply (C6_normalize_notes [lit "a"; lit "b"; lit "c"] 2);
      [lia | vm_compute; discriminate].
  - apply (C6_normalize_notes [lit "a"] 3); [lia | reflexivity].
Defined.

(** [enumerate] pairs the i-th element with [start + i]. *)
Lemma enumerate_spec (l : list str) :
  forall start : Z,
    enumerate start l
    = map (fun i => (start + i, item l i)) (range (len l)).
Proof.
  induction l as [|x l IH]; intros start; [reflexivity|].
  unfold range, len in *. simpl List.length.
  rewrite Nat2Z.id in *. simpl seq. simpl map.
  unfold item at 1. simpl. rewrite Z.add_0_r. f_equal.
  rewrite IH, <- seq_shift, !map_map. apply map_ext. intros i.
  unfold item. rewrite !Nat2Z.id. simpl. f_equal. lia.
Qed.

(** The assembled document of a two-slide deck with one note. *)
Example build_markdown_example :
  build_markdown (lit "deck") 2 [lit "say hi"; []] [lit " # One "; []]
    (Some (lit "deck"))
  = text ["---"; "title: " ++ String (ascii_of_N 34) "deck"
                   ++ String (ascii_of_N 34) EmptyString;
          "speaker_notes:";
          "  - " ++ String (ascii_of_N 34) "say hi"
                 ++ String (ascii_of_N 34) EmptyString;
          "---"; EmptyString;
          "![[deck.pdf#page=1]]"; EmptyString; "# One"; EmptyString;
          EmptyString;
          "![[deck.pdf#page=2]]"; EmptyString]%string.
Proof. reflexivity. Qed.

(** C10: for every [slide_count = N >= 1] and [body_sections] of any
    length [K], [build_markdown] uses the first [N] given sections when
    [K >= N] and the given ones followed by [N - K] empty strings when
    [K < N]. Its body consists of exactly [N] per-slide blocks: the i-th
    is the embed reference to page [i] and an empty line, the trimmed
    text of the i-th section and an empty line when that section is not
    empty, and one more empty line. The document returned is the front
    matter followed by these blocks, joined by newlines, trimmed, with
    one newline at the end. *)
Theorem C10_body_blocks (pdf_basename : str) (notes body_sections : list str)
    (title : option str) (n : Z) :
  1 <= n ->
  let pdf_ref := pdf_basename ++ lit ".pdf" in
  let sections :=
    firstn (Z.to_nat n) body_sections ++ times [] (n - len body_sections) in
  let block i :=
    [embed_line pdf_ref (i + 1); []]
    ++ (if truthy (item sections i) then [strip (item sections i); []]
        else [])
    ++ [[]] in
  normalize_sections body_sections n = sections
  /\ len sections = n
  /\ (n <= len body_sections -> sections = firstn (Z.to_nat n) body_sections)
  /\ (len body_sections < n ->
      sections = body_sections ++ times [] (n - len body_sections)
      /\ len (times (@nil N) (n - len body_sections)) = n - len body_sections)
  /\ body_blocks pdf_ref (normalize_sections body_sections n)
     = map block (range n)
  /\ len (body_blocks pdf_ref (normalize_sections body_sections n)) = n
  /\ build_markdown pdf_basename n notes body_sections title
     = strip (join [NL]
                (frontmatter_lines title notes ++ flat_map block (range n)))
       ++ [NL].
Proof.
  intros Hn pdf_ref sections block.
  assert (Hnorm : normalize_sections body_sections n = sections)
    by (apply normalize_sections_spec; lia).
  assert (Hlen : len sections = n) by (apply len_firstn_pad; lia).
  assert (Hblocks : body_blocks pdf_ref sections = map block (range n)).
  { unfold body_blocks. rewrite enumerate_spec, Hlen, map_map.
    apply map_ext. intros i. unfold block, slide_block.
    now rewrite (Z.add_comm 1 i). }
  split; [exact Hnorm|]. split; [exact Hlen|].
  split; [|split; [|split; [|split]]].
  - intros HK. unfold sections. rewrite times_nonpos by lia.
    apply app_nil_r.
  - intros HK. split.
    + unfold sections. rewrite firstn_all2; [reflexivity|].
      unfold len in HK. lia.
    + apply len_times. lia.
  - now rewrite Hnorm.
  - rewrite Hnorm, Hblocks, len_map. apply len_range. lia.
  - unfold build_markdown. cbv zeta. fold pdf_ref.
    now rewrite Hnorm, Hblocks, <- flat_map_concat_map.
Qed.

Lemma C10_body_blocks_witness :
  build_markdown (lit "d") 2 [] [lit "x"; lit " y "; lit "z"] None
  = text ["![[d.pdf#page=1]]"; EmptyString; "x"; EmptyString; EmptyString;
          "![[d.pdf#page=2]]"; EmptyString; "y"; EmptyString]%string
  /\ build_markdown (lit "d") 3 [] [lit "x"] None
     = text ["![[d.pdf#page=1]]"; EmptyString; "x"; EmptyString; EmptyString;
             "![[d.pdf#page=2]]"; EmptyString; EmptyString;
             "![[d.pdf#page=3]]"; EmptyString]%string
  /\ normalize_sections [lit "x"; lit " y "; lit "z"] 2 = [lit "x"; lit " y "]
  /\ normalize_sections [lit "x"] 3 = [lit "x"; []; []].
Proof.
  pose proof (C10_body_blocks (lit "d") [] [lit "x"; lit " y "; lit "z"] None
                2 ltac:(lia)) as (H1 & _ & _ & _ & _ & _ & H2).
  pose proof (C10_body_blocks (lit "d") [] [lit "x"] None
                3 ltac:(lia)) as (H3 & _ & _ & _ & _ & _ & H4).
  split; [exact H2|]. split; [exact H4|]. split; [exact H1 | exact H3].
Defined.

(* ===================================================================== *)
(** ** The worker count *)
(* ===================================================================== *)

(** C7, as stated: at most [min (P - 1) F] workers. With one processor the
    code still starts one worker. *)
Lemma C7_counterexample :
  ~ (forall P F : Z,
        1 <= P -> 1 <= F ->
        max_workers (Some P) F <= Z.min (P - 1) F
        /\ 1 <= max_workers (Some P) F).
Proof.
  intros H. destruct (H 1 1 ltac:(lia) ltac:(lia)) as [H1 _].
  vm_compute in H1. apply H1. reflexivity.
Qed.

(** C7 (amended): for every parallelism [P >= 1] and every file count
    [F >= 1] the worker count is [min (max 1 (P - 1)) F]: at least 1, at
    most [F], at most [max 1 (P - 1)], and hence at most [min (P - 1) F]
    whenever [P >= 2]. *)
Theorem C7_max_workers (P F : Z) :
  1 <= P -> 1 <= F ->
  max_workers (Some P) F = Z.min (Z.max 1 (P - 1)) F
  /\ 1 <= max_workers (Some P) F
  /\ max_workers (Some P) F <= Z.min (Z.max 1 (P - 1)) F
  /\ (2 <= P -> max_workers (Some P) F <= Z.min (P - 1) F).
Proof.
  intros HP HF. unfold max_workers.
  replace (P =? 0) with false by (symmetry; apply Z.eqb_neq; lia).
  repeat split; lia.
Qed.

Lemma C7_max_workers_witness :
  max_workers (Some 8) 3 = 3 /\ max_workers (Some 1) 5 = 1.
Proof.
  split.
  - apply (C7_max_workers 8 3); lia.
  - apply (C7_max_workers 1 5); lia.
Defined.

(* ===================================================================== *)
(** ** The failure boundary of one conversion *)
(* ===================================================================== *)

Lemma bind_Ok {A B} (m : outcome A) (f : A -> outcome B) (b : B) :
  Py.bind m f = Ok b -> exists a, m = Ok a /\ f a = Ok b.
Proof. destruct m; simpl; [eauto | discriminate]. Qed.

Ltac invert_result :=
  match goal with
  | H : Ok _ = Ok _ |- _ => injection H as H; subst
  | H : Raise _ = Ok _ |- _ => discriminate H
  | H : Py.bind _ _ = Ok _ |- _ =>
      let a := fresh "a" in
      let Ha := fresh "Ha" in
      apply bind_Ok in H as (a & Ha & H)
  | H : (if ?b then _ else _) = Ok _ |- _ => destruct b
  | H : match ?x with _ => _ end = Ok _ |- _ => destruct x
  end.

(** Every record the [try] body returns satisfies the invariant. *)
Lemma convert_one_try_invariant (w : world) (p : str) (r : result) :
  convert_one_try w p = Ok r -> result_invariant r.
Proof.
  unfold convert_one_try. intros H.
  repeat invert_result;
    (split; simpl; intros; [try reflexivity; try discriminate
                           | try discriminate; eauto]).
Qed.

(** Every record [convert_one] returns satisfies the invariant. *)
Lemma convert_one_invariant (w : world) (md : option unit) (r : result) :
  convert_one w md = Ok r -> result_invariant r.
Proof.
  unfold convert_one. intros H.
  apply bind_Ok in H as (p & _ & H).
  apply bind_Ok in H as (o & _ & H).
  apply bind_Ok in H as (m & _ & H).
  unfold try_except in H.
  destruct (convert_one_try w p) as [r'|e] eqn:E.
  - injection H as <-. eapply convert_one_try_invariant; eauto.
  - injection H as <-. split; simpl; intros; [discriminate | eauto].
Qed.

(** The worker always returns a record. *)
Lemma convert_one_worker_returns (w : world) (wmd : option unit) (p : str) :
  exists r, convert_one_worker w wmd p = Ok r.
Proof.
  unfold convert_one_worker, try_except.
  destruct (convert_one w wmd); eauto.
Qed.

Lemma convert_one_worker_invariant (w : world) (wmd : option unit)
    (p : str) (r : result) :
  convert_one_worker w wmd p = Ok r -> result_invariant r.
Proof.
  unfold convert_one_worker, try_except.
  destruct (convert_one w wmd) as [r'|e] eqn:E; intros H; injection H as <-.
  - eapply convert_one_invariant; eauto.
  - split; simpl; intros; [discriminate | eauto].
Qed.

(** C2, as stated: [convert_one] never raises, and every failure record
    has a non-empty error string. Constructing the default extractor
    happens before the [try], so its failure leaves [convert_one]. *)
Lemma C2_counterexample :
  ~ (forall (w : world) (md : option unit),
        exists r, convert_one w md = Ok r
                  /\ (success r = false ->
                      exists msg, error r = Some msg /\ msg <> [])).
Proof.
  intros H.
  destruct (H (sample_world (Raise (Exc OtherException (lit "no plugins")))
                 (Ok tt) (fun _ => Ok tt)) None) as (r & Hr & _).
  vm_compute in Hr. discriminate Hr.
Qed.

(** A caught exception is reported with [str(e)], which may be empty. *)
Example convert_one_empty_error :
  convert_one (sample_world (Ok tt) (Ok tt)
                 (fun _ => Raise (Exc OtherException []))) None
  = Ok (Result false (lit "/in/deck.pptx") (Some [])).
Proof. reflexivity. Qed.

(** Past the three calls that stand before the [try], [convert_one]
    returns the record of the [try] body, or the failure record made from
    the exception the body raised. *)
Lemma convert_one_past_setup (w : world) (md : option unit) (rp ro : str) :
  resolve_pptx w = Ok rp ->
  resolve_output_dir w = Ok ro ->
  (md = None -> new_markitdown w = Ok tt) ->
  convert_one w md
  = Ok match convert_one_try w rp with
       | Ok r => r
       | Raise e => Result false rp (Some (exc_str e))
       end.
Proof.
  intros Hrp Hro Hmd. unfold convert_one. rewrite Hrp, Hro. simpl.
  assert (Hm : match md with
               | Some md0 => Ok md0
               | None => new_markitdown w
               end = Ok tt).
  { destruct md as [[]|]; [reflexivity | now apply Hmd]. }
  rewrite Hm. simpl. unfold try_except.
  now destruct (convert_one_try w rp).
Qed.

(** The [try] body up to the slide count. *)
Lemma convert_one_try_rendered (w : world) (rp pdf : str) :
  convert_pptx_to_pdf w = Ok (Some pdf) ->
  set_pdf_metadata w = Ok tt ->
  convert_one_try w rp
  = (slide_count <- resolved_slide_count w ;;
     if slide_count <=? 0 then
       Ok (Result false rp (Some (lit "No slides found or invalid file")))
     else
       write_text w (markdown_content w slide_count) ;;;
       Ok (Result true rp None))%py.
Proof.
  intros Hpdf Hmeta. unfold convert_one_try. rewrite Hpdf. cbn [Py.bind].
  rewrite Hmeta. reflexivity.
Qed.

(** C2 (amended): [convert_one_worker] never raises: it always returns a
    result record, which is the record [convert_one] returned, or the
    failure record with the text of the exception that left
    [convert_one]; a record with success=false carries an error string.
    [convert_one] itself returns a record whenever resolving the two
    paths and, if no extractor was passed, constructing one, succeed.
    Every failure of the later steps is then caught and returned as the
    record with success=false, the resolved path and an error string: the
    fixed text of the rendering failure when the renderer produced no
    PDF, the fixed text of the slide-count failure when no positive count
    was found, and the text of the exception when rendering, stamping
    the metadata, counting the pages or writing the Markdown file
    raised. Only when none of this happens is the record a success. *)
Theorem C2_failure_boundary (w : world) (md wmd : option unit) (p : str) :
  (exists r,
      convert_one_worker w wmd p = Ok r
      /\ failure_reported r
      /\ (forall r', convert_one w wmd = Ok r' -> r = r')
      /\ (forall e, convert_one w wmd = Raise e ->
                    r = Result false p (Some (exc_str e))))
  /\ (forall rp ro,
         resolve_pptx w = Ok rp ->
         resolve_output_dir w = Ok ro ->
         (md = None -> new_markitdown w = Ok tt) ->
         exists r,
           convert_one w md = Ok r
           /\ failure_reported r
           /\ (forall e, convert_one_try w rp = Raise e ->
                         r = Result false rp (Some (exc_str e)))
           /\ path r = rp
           /\ (forall e, convert_pptx_to_pdf w = Raise e ->
                         r = Result false rp (Some (exc_str e)))
           /\ (convert_pptx_to_pdf w = Ok None ->
               r = Result false rp
                     (Some (lit "PDF conversion failed (LibreOffice)")))
           /\ (forall pdf,
                  convert_pptx_to_pdf w = Ok (Some pdf) ->
                  (forall e, set_pdf_metadata w = Raise e ->
                             r = Result false rp (Some (exc_str e)))
                  /\ (set_pdf_metadata w = Ok tt ->
                      (forall e, resolved_slide_count w = Raise e ->
                                 r = Result false rp (Some (exc_str e)))
                      /\ (forall n,
                             resolved_slide_count w = Ok n ->
                             (n <= 0 ->
                              r = Result false rp
                                    (Some (lit "No slides found or invalid file")))
                             /\ (1 <= n ->
                                 (forall e,
                                     write_text w (markdown_content w n)
                                     = Raise e ->
                                     r = Result false rp (Some (exc_str e)))
                                 /\ (write_text w (markdown_content w n)
                                     = Ok tt ->
                                     r = Result true rp None)))))).
Proof.
  split.
  - destruct (convert_one_worker_returns w wmd p) as [r Hr].
    exists r. split; [exact Hr|].
    split; [exact (proj2 (convert_one_worker_invariant w wmd p r Hr))|].
    unfold convert_one_worker, try_except in Hr.
    split.
    + intros r' E. rewrite E in Hr. now injection Hr as <-.
    + intros e E. rewrite E in Hr. now injection Hr as <-.
  - intros rp ro Hrp Hro Hmd.
    pose proof (convert_one_past_setup w md rp ro Hrp Hro Hmd) as Hr.
    eexists. split; [exact Hr|].
    split; [exact (proj2 (convert_one_invariant w md _ Hr))|].
    split; [intros e E; now rewrite E|].
    split.
    { destruct (convert_one_try w rp) as [r|e] eqn:E; [|reflexivity].
      unfold convert_one_try in E.
      repeat invert_result; reflexivity. }
    split; [intros e E; unfold convert_one_try; now rewrite E|].
    split; [intros E; unfold convert_one_try; now rewrite E|].
    intros pdf Hpdf. split.
    { intros e E. unfold convert_one_try. rewrite Hpdf. cbn [Py.bind].
      now rewrite E. }
    intros Hmeta. rewrite (convert_one_try_rendered w rp pdf Hpdf Hmeta).
    split; [intros e E; now rewrite E|].
    intros n En. rewrite En. cbn [Py.bind]. split.
    + intros Hle. now replace (n <=? 0) with true
        by (symmetry; apply Z.leb_le; lia).
    + intros Hge. replace (n <=? 0) with false
        by (symmetry; apply Z.leb_gt; lia).
      split; intros; [intros|]; match goal with
             | E : write_text _ _ = _ |- _ => now rewrite E
             end.
Qed.

Lemma C2_failure_boundary_witness :
  convert_one (sample_world (Ok tt)
                 (Raise (Exc TimeoutExpired (lit "timed out")))
                 (fun _ => Ok tt)) None
  = Ok (Result false (lit "/in/deck.pptx")
          (Some (lit "PDF conversion failed (LibreOffice)"))).
Proof.
  destruct (proj2 (C2_failure_boundary
                     (sample_world (Ok tt)
                        (Raise (Exc TimeoutExpired (lit "timed out")))
                        (fun _ => Ok tt))
                     None None [])
              (lit "/in/deck.pptx") (lit "/out"))
    as (r & Hr & _ & _ & _ & _ & Hnone & _);
    [reflexivity | reflexivity | reflexivity |].
  rewrite Hr. f_equal. apply Hnone. reflexivity.
Defined.

(** C3: every result record [convert_one] produces, and every result
    record [convert_one_worker] produces, satisfies the invariant:
    success=true implies that the error field is [None], and
    success=false implies that it is a string. *)
Theorem C3_result_invariant (w : world) (md : option unit) (p : str)
    (r : result) :
  convert_one w md = Ok r \/ convert_one_worker w md p = Ok r ->
  result_invariant r.
Proof.
  intros [H|H].
  - eapply convert_one_invariant; eauto.
  - eapply convert_one_worker_invariant; eauto.
Qed.

Lemma C3_result_invariant_witness :
  result_invariant (Result true (lit "/in/deck.pptx") None).
Proof.
  apply (C3_result_invariant
           (sample_world (Ok tt) (Ok tt) (fun _ => Ok tt))
           None [] (Result true (lit "/in/deck.pptx") None)).
  left. reflexivity.
Defined.

(* ===================================================================== *)
(** ** The batch scheduler on an empty input set *)
(* ===================================================================== *)

(** With at least one file discovered, the first thing a run does is the
    renderer-availability check. *)
Lemma run_conversion_checks_renderer (w : batch_world) (input_path : str)
    (mirror : bool) (cb : option (Z -> Z -> option result -> outcome unit))
    (f : str) (fs : list str) :
  discover w input_path = Ok (f :: fs) ->
  exists evs, fst (run_conversion w input_path mirror cb)
              = EvCheckRenderer :: evs.
Proof.
  intros H. unfold run_conversion, lift. rewrite H. simpl.
  destruct (renderer w); simpl; [|eauto].
  destruct (output_base_resolved w); simpl; [|eauto].
  match goal with
  | |- context [rbind ?m ?k] => destruct (rbind m k) as [evs r]
  end.
  simpl. eauto.
Qed.

(** C8: when the discovered input set is empty, [run_conversion] returns
    [(0, [])]: it does not raise, it does not perform the
    renderer-availability check, and it runs no conversion task (the only
    place the renderer is invoked). *)
Theorem C8_empty_input (w : batch_world) (input_path : str) (mirror : bool)
    (cb : option (Z -> Z -> option result -> outcome unit)) :
  discover w input_path = Ok [] ->
  run_conversion w input_path mirror cb = ([], Ok (0, []))
  /\ ~ In EvCheckRenderer (fst (run_conversion w input_path mirror cb))
  /\ (forall p o,
         ~ In (EvConvert p o) (fst (run_conversion w input_path mirror cb))).
Proof.
  intros H.
  assert (E : run_conversion w input_path mirror cb = ([], Ok (0, []))).
  { unfold run_conversion, lift. rewrite H. reflexivity. }
  rewrite E. simpl. repeat split; auto.
Qed.

Lemma C8_empty_input_witness :
  run_conversion
    (sample_batch [DirEntry true (lit ".txt") (lit "/in/readme.txt");
                   DirEntry false (lit ".pptx") (lit "/in/dir.pptx")])
    (lit "/in") true None
  = ([], Ok (0, [])).
Proof.
  apply (C8_empty_input
           (sample_batch [DirEntry true (lit ".txt") (lit "/in/readme.txt");
                          DirEntry false (lit ".pptx") (lit "/in/dir.pptx")])
           (lit "/in") true None).
  reflexivity.
Defined.

(** A run over one file, for comparison: check, pool of one worker, one
    conversion, one success. *)
Example run_conversion_one_file :
  run_conversion
    (sample_batch [DirEntry true (lit ".pptx") (lit "/in/deck.pptx")])
    (lit "/in") true None
  = ([EvCheckRenderer; EvPool 1;
      EvConvert (lit "/in/deck.pptx") (lit "/out")],
     Ok (1, [])).
Proof. reflexivity. Qed.

(* ===================================================================== *)
(** ** Reading the embed references back out of the assembled document *)
(* ===================================================================== *)

(** *** Stripping and concatenation *)

Lemma lstrip_head_nonspace (s : str) : head_nonspace s -> lstrip s = s.
Proof. destruct s as [|c s]; simpl; [tauto | now intros ->]. Qed.

Lemma lstrip_app_l (x y : str) :
  lstrip x <> [] -> lstrip (x ++ y) = lstrip x ++ y.
Proof.
  induction x as [|c x IH]; simpl; [congruence|].
  destruct (isspace c); auto.
Qed.

Lemma lstrip_app_space (x y : str) :
  lstrip x = [] -> lstrip (x ++ y) = lstrip y.
Proof.
  induction x as [|c x IH]; simpl; [reflexivity|].
  destruct (isspace c); [auto | discriminate].
Qed.

Lemma lstrip_idem (s : str) : lstrip (lstrip s) = lstrip s.
Proof.
  induction s as [|c s IH]; simpl; [reflexivity|].
  destruct (isspace c) eqn:E; [exact IH | simpl; now rewrite E].
Qed.

Lemma rstrip_app_r (a b : str) :
  rstrip b <> [] -> rstrip (a ++ b) = a ++ rstrip b.
Proof.
  unfold rstrip. intros H. rewrite rev_app_distr, lstrip_app_l.
  - now rewrite rev_app_distr, rev_involutive.
  - intros E. apply H. now rewrite E.
Qed.

Lemma rstrip_app_space (a b : str) :
  rstrip b = [] -> rstrip (a ++ b) = rstrip a.
Proof.
  unfold rstrip. intros H. rewrite rev_app_distr, lstrip_app_space;
    [reflexivity|].
  apply (f_equal (@rev char)) in H. now rewrite rev_involutive in H.
Qed.

Lemma rstrip_idem (s : str) : rstrip (rstrip s) = rstrip s.
Proof. unfold rstrip. now rewrite rev_involutive, lstrip_idem. Qed.

Lemma right_trimmed_strip (s : str) : right_trimmed (strip s).
Proof. unfold right_trimmed, strip. apply rstrip_idem. Qed.

(** A string ending in a non-empty right-trimmed suffix is right-trimmed. *)
Lemma right_trimmed_app (a b : str) :
  b <> [] -> right_trimmed b -> right_trimmed (a ++ b).
Proof.
  unfold right_trimmed. intros Hne Hb.
  rewrite rstrip_app_r; rewrite Hb; auto.
Qed.

(** *** Joining and splitting *)

Lemma join_cons (sep l : str) (rest : list str) :
  rest <> [] -> join sep (l :: rest) = l ++ sep ++ join sep rest.
Proof. destruct rest; [congruence | reflexivity]. Qed.

Lemma join_snoc (sep e : str) (ls : list str) :
  ls <> [] -> join sep (ls ++ [e]) = join sep ls ++ sep ++ e.
Proof.
  induction ls as [|l ls IH]; [congruence|]. intros _.
  destruct ls as [|l' ls].
  - reflexivity.
  - change ((l :: l' :: ls) ++ [e]) with (l :: ((l' :: ls) ++ [e])).
    rewrite join_cons by (simpl; discriminate).
    rewrite IH by discriminate.
    rewrite (join_cons sep l (l' :: ls)) by discriminate.
    now rewrite <- !app_assoc.
Qed.

Lemma head_nonspace_join (sep l : str) (rest : list str) :
  head_nonspace l -> head_nonspace (join sep (l :: rest)).
Proof.
  destruct l as [|c l]; [simpl; tauto|]. intros H.
  destruct rest; [exact H | exact H].
Qed.

Lemma split_lines_nonempty (s : str) : split_lines s <> [].
Proof.
  induction s as [|c s IH]; simpl; [discriminate|].
  destruct (c =? NL)%N; [discriminate|].
  destruct (split_lines s); discriminate.
Qed.

Lemma split_lines_app (a b : str) :
  split_lines (a ++ NL :: b) = split_lines a ++ split_lines b.
Proof.
  induction a as [|c a IH]; [reflexivity|].
  simpl. destruct (c =? NL)%N.
  - now rewrite IH.
  - rewrite IH. pose proof (split_lines_nonempty a) as Hne.
    destruct (split_lines a); [congruence | reflexivity].
Qed.

Lemma split_lines_single (s : str) : single_line s -> split_lines s = [s].
Proof.
  unfold single_line. induction s as [|c s IH]; [reflexivity|].
  intros H. simpl.
  destruct (N.eqb_spec c NL) as [->|Hc]; [exfalso; apply H; now left|].
  rewrite IH; [reflexivity|]. intros Hin. apply H. now right.
Qed.

Lemma single_line_app (a b : str) :
  single_line a -> single_line b -> single_line (a ++ b).
Proof. unfold single_line. intros Ha Hb H. apply in_app_or in H. tauto. Qed.

Lemma single_line_replace1 (old : char) (new s : str) :
  single_line new -> single_line s -> single_line (replace1 old new s).
Proof.
  unfold single_line, replace1. intros Hnew Hs H.
  apply in_flat_map in H as (c & Hc & H).
  destruct (c =? old)%N; [tauto|].
  destruct H as [->|[]]. tauto.
Qed.

Lemma single_line_replace1_NL (new s : str) :
  single_line new -> single_line (replace1 NL new s).
Proof.
  unfold single_line, replace1. intros Hnew H.
  apply in_flat_map in H as (c & Hc & H).
  destruct (N.eqb_spec c NL) as [->|Hne]; [tauto|].
  destruct H as [H|[]]. congruence.
Qed.

(** *** Printing and reading page numbers *)

Lemma to_string_lit (s : string) : to_string (lit s) = Some s.
Proof.
  induction s as [|a s IH]; [reflexivity|].
  change (lit (String a s)) with (N_of_ascii a :: lit s).
  simpl to_string.
  pose proof (N_ascii_bounded a) as Hb. apply N.ltb_lt in Hb.
  rewrite Hb, IH. simpl. now rewrite ascii_N_embedding.
Qed.

Lemma string_of_uint_digits (d : Decimal.uint) :
  single_line (lit (NilEmpty.string_of_uint d)).
Proof.
  unfold single_line.
  induction d; simpl; [tauto | ..];
    (intros [H|H]; [discriminate H | auto]).
Qed.

Lemma single_line_str_of_int (n : Z) : single_line (str_of_int n).
Proof. apply string_of_uint_digits. Qed.

Lemma truthy_str_of_int (n : Z) : truthy (str_of_int n) = true.
Proof.
  unfold str_of_int.
  assert (H : N.to_uint (Z.to_N n) <> Decimal.Nil).
  { destruct (Z.to_N n) as [|p]; [discriminate|].
    apply DecimalPos.Unsigned.to_uint_nonnil. }
  destruct (N.to_uint (Z.to_N n)); [congruence | reflexivity ..].
Qed.

Lemma parse_page_str_of_int (n : Z) :
  0 <= n -> parse_page (str_of_int n) = Some n.
Proof.
  intros Hn. unfold parse_page. rewrite truthy_str_of_int.
  unfold str_of_int. rewrite to_string_lit, NilEmpty.usu. simpl.
  rewrite DecimalN.Unsigned.of_to. f_equal. lia.
Qed.

Lemma strip_prefix_app (p rest : str) : strip_prefix p (p ++ rest) = Some rest.
Proof.
  induction p as [|c p IH]; simpl; [now destruct rest|].
  now rewrite N.eqb_refl.
Qed.

Lemma strip_suffix_app (d suf : str) : strip_suffix suf (d ++ suf) = Some d.
Proof.
  unfold strip_suffix. rewrite rev_app_distr, strip_prefix_app. simpl.
  now rewrite rev_involutive.
Qed.

Section RoundTrip.
Variable pdf_basename : str.
Hypothesis basename_single_line : single_line pdf_basename.

Let pdf_ref : str := pdf_basename ++ lit ".pdf".
Let parse : str -> list Z := parse_embeds pdf_basename.

Lemma parse_nil : parse [] = [].
Proof. reflexivity. Qed.

Lemma parse_app (a b : str) : parse (a ++ NL :: b) = parse a ++ parse b.
Proof.
  unfold parse, parse_embeds. now rewrite split_lines_app, flat_map_app.
Qed.

Lemma parse_join (ls : list str) :
  ls <> [] -> parse (join [NL] ls) = flat_map parse ls.
Proof.
  induction ls as [|l ls IH]; [congruence|]. intros _.
  destruct ls as [|l' ls].
  - simpl. now rewrite app_nil_r.
  - rewrite join_cons by discriminate.
    change (l ++ [NL] ++ join [NL] (l' :: ls))
      with (l ++ NL :: join [NL] (l' :: ls)).
    rewrite parse_app, IH by discriminate. reflexivity.
Qed.

Lemma embed_page_other (c : char) (rest : str) :
  c <> 33%N -> embed_page pdf_basename (c :: rest) = None.
Proof.
  intros Hc. unfold embed_page.
  change (lit "![[" ++ (pdf_basename ++ lit ".pdf") ++ lit "#page=")
    with (33%N :: (lit "[[" ++ (pdf_basename ++ lit ".pdf") ++ lit "#page=")).
  cbn [strip_prefix].
  destruct (N.eqb_spec 33 c) as [E|_]; [congruence | reflexivity].
Qed.

(** A single line that does not start with an exclamation mark holds
    no embed reference. *)
Lemma parse_other_line (c : char) (rest : str) :
  c <> 33%N -> single_line (c :: rest) -> parse (c :: rest) = [].
Proof.
  intros Hc Hline. unfold parse, parse_embeds.
  rewrite split_lines_single by assumption.
  cbn [flat_map]. now rewrite embed_page_other.
Qed.

(** Right-stripping a document whose lines are right-trimmed only drops
    trailing empty lines, which hold no reference. *)
Lemma parse_rstrip_join (ls : list str) :
  Forall right_trimmed ls ->
  parse (rstrip (join [NL] ls)) = flat_map parse ls.
Proof.
  induction ls as [|e ls IH] using rev_ind; intros Hall; [reflexivity|].
  apply Forall_app in Hall as [Hls He].
  apply Forall_inv in He. unfold right_trimmed in He.
  rewrite flat_map_app. simpl flat_map. rewrite app_nil_r.
  destruct ls as [|l ls].
  - simpl. now rewrite He.
  - rewrite join_snoc by discriminate.
    destruct e as [|c e].
    + rewrite app_nil_r, rstrip_app_space by reflexivity.
      rewrite IH by assumption. rewrite parse_nil. now rewrite app_nil_r.
    + rewrite app_assoc, rstrip_app_r by (rewrite He; discriminate).
      rewrite He, <- app_assoc.
      change ([NL] ++ c :: e) with (NL :: c :: e).
      rewrite parse_app, parse_join by discriminate. reflexivity.
Qed.

(** **** The embed line *)

Lemma embed_line_shape (n : Z) :
  embed_line pdf_ref n
  = (lit "![[" ++ (pdf_basename ++ lit ".pdf") ++ lit "#page=")
    ++ (str_of_int n ++ lit "]]").
Proof.
  unfold embed_line, pdf_ref. now rewrite <- !app_assoc.
Qed.

Lemma embed_page_embed_line (n : Z) :
  0 <= n -> embed_page pdf_basename (embed_line pdf_ref n) = Some n.
Proof.
  intros Hn. rewrite embed_line_shape. unfold embed_page.
  rewrite strip_prefix_app, strip_suffix_app.
  now apply parse_page_str_of_int.
Qed.

Lemma single_line_embed_line (n : Z) : single_line (embed_line pdf_ref n).
Proof.
  unfold embed_line, pdf_ref.
  repeat apply single_line_app;
    try assumption; try apply single_line_str_of_int;
    unfold single_line; simpl; intuition discriminate.
Qed.

Lemma parse_embed_line (n : Z) :
  0 <= n -> parse (embed_line pdf_ref n) = [n].
Proof.
  intros Hn. unfold parse, parse_embeds.
  rewrite split_lines_single by apply single_line_embed_line.
  simpl. now rewrite embed_page_embed_line.
Qed.

Lemma right_trimmed_embed_line (n : Z) :
  right_trimmed (embed_line pdf_ref n).
Proof.
  unfold embed_line. rewrite !app_assoc.
  apply right_trimmed_app; [discriminate | reflexivity].
Qed.

Lemma head_nonspace_embed_line (n : Z) :
  head_nonspace (embed_line pdf_ref n).
Proof. reflexivity. Qed.

End RoundTrip.

Lemma flat_map_nil {A B C} (f : A -> list B) (g : B -> list C) (l : list A) :
  Forall (fun x => flat_map g (f x) = []) l ->
  flat_map g (flat_map f l) = [].
Proof.
  induction 1 as [|x l Hx _ IH]; [reflexivity|].
  simpl. now rewrite flat_map_app, Hx, IH.
Qed.

Lemma single_line_lit_bslash_quote : single_line [BSLASH; QUOTE].
Proof. unfold single_line. simpl. intuition discriminate. Qed.

Lemma single_line_lit_bslash_bslash : single_line [BSLASH; BSLASH].
Proof. unfold single_line. simpl. intuition discriminate. Qed.

Lemma single_line_quote : single_line [QUOTE].
Proof. unfold single_line. simpl. intuition discriminate. Qed.

Lemma right_trimmed_quoted (pre body : str) :
  right_trimmed (pre ++ [QUOTE] ++ body ++ [QUOTE]).
Proof.
  rewrite !app_assoc. apply right_trimmed_app; [discriminate | reflexivity].
Qed.

Section Assembled.
Variable pdf_basename : str.
Hypothesis basename_single_line : single_line pdf_basename.

Let pdf_ref : str := pdf_basename ++ lit ".pdf".
Let parse : str -> list Z := parse_embeds pdf_basename.

(** **** The front matter *)

Lemma right_trimmed_fm_entry (e : fm_entry) :
  Forall right_trimmed (fm_entry_lines e).
Proof.
  destruct e as [v|v]; unfold fm_entry_lines.
  - constructor; [apply right_trimmed_quoted | constructor].
  - constructor; [reflexivity|].
    apply Forall_map, Forall_forall. intros n _.
    apply right_trimmed_quoted.
Qed.

Lemma right_trimmed_frontmatter (title : option str) (notes : list str) :
  Forall right_trimmed (frontmatter_lines title notes).
Proof.
  unfold frontmatter_lines.
  destruct (truthy (frontmatter title notes)); [|constructor].
  apply Forall_app. split; [repeat constructor|].
  apply Forall_app. split; [|repeat constructor].
  apply Forall_flat_map, Forall_forall. intros e _.
  apply right_trimmed_fm_entry.
Qed.

(** A quoted front-matter line holds no embed reference. *)
Lemma parse_quoted_line (c : char) (pre body : str) :
  c <> 33%N -> single_line (c :: pre) -> single_line body ->
  parse ((c :: pre) ++ [QUOTE] ++ body ++ [QUOTE]) = [].
Proof.
  intros Hc Hpre Hbody.
  assert (Hline : single_line ((c :: pre) ++ [QUOTE] ++ body ++ [QUOTE])).
  { repeat apply single_line_app;
      assumption || apply single_line_quote. }
  now apply parse_other_line.
Qed.

Lemma parse_title_line (v : str) :
  single_line v ->
  parse (lit "title: " ++ [QUOTE] ++ escape_title v ++ [QUOTE]) = [].
Proof.
  intros Hv.
  change (lit "title: ") with (116%N :: lit "itle: ").
  apply parse_quoted_line.
  - discriminate.
  - unfold single_line. simpl. intuition discriminate.
  - unfold escape_title.
    apply single_line_replace1; [apply single_line_lit_bslash_quote|].
    apply single_line_replace1;
      [apply single_line_lit_bslash_bslash | exact Hv].
Qed.

Lemma parse_note_line (n : str) :
  parse (lit "  - " ++ [QUOTE] ++ escape_note n ++ [QUOTE]) = [].
Proof.
  change (lit "  - ") with (32%N :: lit " - ").
  apply parse_quoted_line.
  - discriminate.
  - unfold single_line. simpl. intuition discriminate.
  - unfold escape_note. apply single_line_replace1_NL.
    unfold single_line. simpl. intuition discriminate.
Qed.

Lemma parse_notes_key : parse (lit "speaker_notes:") = [].
Proof.
  change (lit "speaker_notes:") with (115%N :: lit "peaker_notes:").
  apply parse_other_line; [discriminate|].
  unfold single_line. simpl. intuition discriminate.
Qed.

Lemma parse_fence : parse (lit "---") = [].
Proof.
  change (lit "---") with (45%N :: lit "--").
  apply parse_other_line; [discriminate|].
  unfold single_line. simpl. intuition discriminate.
Qed.

Lemma parse_fm_entry (e : fm_entry) :
  fm_single_line e -> flat_map parse (fm_entry_lines e) = [].
Proof.
  destruct e as [v|v]; unfold fm_entry_lines, fm_single_line; intros Hv.
  - cbn [flat_map]. rewrite parse_title_line by assumption. reflexivity.
  - cbn [flat_map]. rewrite parse_notes_key, app_nil_l.
    induction v as [|n v IH]; [reflexivity|]. cbn [map flat_map].
    now rewrite IH, parse_note_line.
Qed.

Lemma fm_single_line_frontmatter (title : option str) (notes : list str) :
  (forall t, title = Some t -> single_line t) ->
  Forall fm_single_line (frontmatter title notes).
Proof.
  intros Ht. unfold frontmatter. apply Forall_app. split.
  - destruct title as [t|]; [|constructor].
    destruct (truthy t); repeat constructor. now apply Ht.
  - destruct (truthy (filter truthy notes)); repeat constructor.
Qed.

Lemma parse_frontmatter (title : option str) (notes : list str) :
  (forall t, title = Some t -> single_line t) ->
  flat_map parse (frontmatter_lines title notes) = [].
Proof.
  intros Ht. unfold frontmatter_lines.
  destruct (truthy (frontmatter title notes)); [|reflexivity].
  rewrite !flat_map_app. rewrite flat_map_nil.
  - cbn [flat_map]. rewrite parse_fence.
    change (parse []) with (@nil Z). reflexivity.
  - eapply Forall_impl; [|apply fm_single_line_frontmatter; exact Ht].
    intros e. apply parse_fm_entry.
Qed.

(** **** The body *)

Lemma right_trimmed_slide_block (n : Z) (s : str) :
  Forall right_trimmed (slide_block pdf_ref (n, s)).
Proof.
  unfold slide_block.
  apply Forall_app. split; [|apply Forall_app; split].
  - constructor; [apply right_trimmed_embed_line|].
    constructor; [reflexivity | constructor].
  - destruct (truthy s); [|constructor].
    constructor; [apply right_trimmed_strip|].
    constructor; [reflexivity | constructor].
  - constructor; [reflexivity | constructor].
Qed.

Lemma parse_slide_block (n : Z) (s : str) :
  0 <= n -> embed_free pdf_basename s ->
  flat_map parse (slide_block pdf_ref (n, s)) = [n].
Proof.
  intros Hn Hs. unfold embed_free in Hs. fold parse in Hs.
  unfold slide_block. rewrite !flat_map_app. cbn [flat_map].
  replace (parse (embed_line pdf_ref n)) with [n]
    by (symmetry; now apply parse_embed_line).
  change (parse []) with (@nil Z).
  destruct (truthy s); cbn [flat_map]; [rewrite Hs|]; reflexivity.
Qed.

Lemma right_trimmed_body (secs : list str) :
  Forall right_trimmed (List.concat (body_blocks pdf_ref secs)).
Proof.
  apply Forall_concat. unfold body_blocks.
  apply Forall_map, Forall_forall. intros [n s] _.
  apply right_trimmed_slide_block.
Qed.

Lemma parse_blocks (secs : list str) :
  forall start : Z,
    0 <= start -> Forall (embed_free pdf_basename) secs ->
    flat_map parse
      (List.concat (map (slide_block pdf_ref) (enumerate start secs)))
    = map fst (enumerate start secs).
Proof.
  induction secs as [|s secs IH]; intros start Hstart Hall;
    [reflexivity|].
  apply Forall_cons_iff in Hall as [Hs Hsecs].
  cbn [enumerate map]. rewrite concat_cons, flat_map_app.
  rewrite parse_slide_block, IH by (assumption || lia). reflexivity.
Qed.

Lemma pages_enumerate (secs : list str) :
  map fst (enumerate 1 secs) = pages (len secs).
Proof.
  rewrite enumerate_spec, map_map. unfold pages.
  apply map_ext. intros i. cbn [fst]. apply Z.add_comm.
Qed.

Lemma embed_free_normalize_sections (secs : list str) (n : Z) :
  0 <= n -> Forall (embed_free pdf_basename) secs ->
  Forall (embed_free pdf_basename) (normalize_sections secs n).
Proof.
  intros Hn Hall. rewrite normalize_sections_spec by assumption.
  apply Forall_app. split.
  - rewrite <- (firstn_skipn (Z.to_nat n) secs) in Hall.
    now apply Forall_app in Hall as [H _].
  - apply Forall_forall. intros s Hs.
    apply repeat_spec in Hs. subst s. reflexivity.
Qed.

(** The joined lines start with a non-space character. *)
Lemma head_nonspace_lines (title : option str) (notes secs : list str) :
  secs <> [] ->
  head_nonspace
    (join [NL] (frontmatter_lines title notes
                ++ List.concat (body_blocks pdf_ref secs))).
Proof.
  intros Hsecs. unfold frontmatter_lines.
  destruct (truthy (frontmatter title notes)).
  - apply head_nonspace_join. reflexivity.
  - destruct secs as [|s secs]; [congruence|].
    apply head_nonspace_join. reflexivity.
Qed.

(** The references read back are one per section, in page order. *)
Lemma parse_build_markdown (n : Z) (notes secs : list str)
    (title : option str) :
  1 <= n ->
  (forall t, title = Some t -> single_line t) ->
  Forall (embed_free pdf_basename) secs ->
  parse (build_markdown pdf_basename n notes secs title) = pages n.
Proof.
  intros Hn Htitle Hsecs. unfold build_markdown. cbv zeta.
  fold pdf_ref.
  assert (Hlen : len (normalize_sections secs n) = n).
  { rewrite normalize_sections_spec by lia. apply len_firstn_pad. lia. }
  assert (Hne : normalize_sections secs n <> []).
  { intros E. rewrite E in Hlen. unfold len in Hlen. simpl in Hlen. lia. }
  unfold strip. rewrite lstrip_head_nonspace
    by (apply head_nonspace_lines; exact Hne).
  change (?x ++ [NL]) with (x ++ NL :: []).
  unfold parse. rewrite parse_app. fold parse.
  unfold parse at 1. rewrite parse_rstrip_join.
  - fold parse. rewrite flat_map_app, parse_frontmatter by assumption.
    unfold body_blocks. rewrite parse_blocks.
    + rewrite pages_enumerate, Hlen. simpl. apply app_nil_r.
    + lia.
    + apply embed_free_normalize_sections; [lia | assumption].
  - apply Forall_app. split;
      [apply right_trimmed_frontmatter | apply right_trimmed_body].
Qed.

End Assembled.

(** C9, as stated: for all annotation and section lists of length [N],
    reading the embed references back gives exactly the pages [1..N]. A
    section whose text is itself an embed reference is copied into the
    body and read back as one more reference. *)
Lemma C9_counterexample :
  ~ (forall (pdf_basename : str) (n : Z) (notes secs : list str)
            (title : option str),
        1 <= n -> len notes = n -> len secs = n ->
        parse_embeds pdf_basename
          (build_markdown pdf_basename n notes secs title)
        = pages n).
Proof.
  intros H.
  specialize (H (lit "a") 1 [[]] [lit "![[a.pdf#page=1]]"] None
                ltac:(lia) eq_refl eq_refl).
  vm_compute in H. discriminate H.
Qed.

(** C9 (amended): for every basename and title without a newline, every
    [N >= 1], every annotation list, and every section list in which no
    section's trimmed text has a line that is itself an embed reference to
    the document, reading the embed references back out of the output of
    [build_markdown] line by line yields exactly [N] references, to the
    pages [1..N] in ascending order. *)
Theorem C9_embed_roundtrip (pdf_basename : str) (n : Z)
    (notes secs : list str) (title : option str) :
  1 <= n ->
  single_line pdf_basename ->
  (forall t, title = Some t -> single_line t) ->
  Forall (embed_free pdf_basename) secs ->
  parse_embeds pdf_basename (build_markdown pdf_basename n notes secs title)
  = pages n
  /\ len (parse_embeds pdf_basename
            (build_markdown pdf_basename n notes secs title)) = n.
Proof.
  intros Hn Hbase Htitle Hsecs.
  rewrite parse_build_markdown by assumption.
  split; [reflexivity|].
  unfold pages. rewrite len_map. apply len_range. lia.
Qed.

Lemma C9_embed_roundtrip_witness :
  parse_embeds (lit "deck")
    (build_markdown (lit "deck") 3 [lit "first note"; []; lit "third"]
       [text ["# One"; "body"]; lit "  two  "; []] (Some (lit "deck")))
  = [1; 2; 3]
  /\ len (parse_embeds (lit "deck")
            (build_markdown (lit "deck") 3 [lit "first note"; []; lit "third"]
               [text ["# One"; "body"]; lit "  two  "; []]
               (Some (lit "deck")))) = 3.
Proof.
  apply (C9_embed_roundtrip (lit "deck") 3 [lit "first note"; []; lit "third"]
           [text ["# One"; "body"]; lit "  two  "; []] (Some (lit "deck"))).
  - lia.
  - unfold single_line. simpl. intuition discriminate.
  - intros t [= <-]. unfold single_line. simpl. intuition discriminate.
  - repeat constructor; reflexivity.
Defined.

(* ===================================================================== *)
(** ** Further properties of the segmenter *)
(* ===================================================================== *)

Lemma re_split_from_nonempty (s : str) :
  forall cur, re_split_from cur s <> [].
Proof.
  induction s as [|c s IH]; intros cur; simpl; [discriminate|].
  destruct ((c =? NL)%N && heading_marker s); [discriminate | apply IH].
Qed.

Lemma re_split_from_join (s : str) :
  forall cur, join [NL] (re_split_from cur s) = rev cur ++ s.
Proof.
  induction s as [|c s IH]; intros cur; simpl re_split_from.
  - simpl. now rewrite app_nil_r.
  - destruct ((c =? NL)%N && heading_marker s) eqn:E.
    + apply andb_prop in E as [Hc _]. apply N.eqb_eq in Hc. subst c.
      rewrite join_cons by apply re_split_from_nonempty.
      now rewrite IH.
    + rewrite IH. simpl. now rewrite <- app_assoc.
Qed.

(** X1: cutting a text at its heading boundaries loses nothing: joining
    the parts with newlines gives the text back. *)
Theorem X1_split_join (s : str) : join [NL] (re_split_headings s) = s.
Proof. unfold re_split_headings. now rewrite re_split_from_join. Qed.

(** The first part carries what was already read. *)
Lemma re_split_from_head (s : str) :
  forall cur, exists p ps, re_split_from cur s = (rev cur ++ p) :: ps.
Proof.
  induction s as [|c s IH]; intros cur; simpl.
  - exists [], []. now rewrite app_nil_r.
  - destruct ((c =? NL)%N && heading_marker s).
    + exists [], (re_split_from [] s). now rewrite app_nil_r.
    + destruct (IH (c :: cur)) as (p & ps & E). rewrite E.
      exists (c :: p), ps. simpl. now rewrite <- app_assoc.
Qed.

Lemma heading_marker_hash (s : str) :
  heading_marker s = true -> exists r, s = HASH :: r.
Proof.
  destruct s as [|c r]; [intros H; vm_compute in H; discriminate H|].
  destruct (N.eqb_spec HASH c) as [<-|Hc]; [eauto|].
  intros H. exfalso. unfold heading_marker in H. cbn [existsb firstn forallb] in H.
  apply N.eqb_neq in Hc. rewrite Hc in H. discriminate H.
Qed.

Lemma re_split_from_tail_hash (s : str) :
  forall cur,
    Forall (fun p => exists r, p = HASH :: r) (tl (re_split_from cur s)).
Proof.
  induction s as [|c s IH]; intros cur; simpl; [constructor|].
  destruct ((c =? NL)%N && heading_marker s) eqn:E.
  - apply andb_prop in E as [_ Hm]. simpl.
    destruct (heading_marker_hash s Hm) as [r ->].
    specialize (IH []).
    change (re_split_from [] (HASH :: r)) with (re_split_from [HASH] r).
    change (re_split_from [] (HASH :: r)) with (re_split_from [HASH] r) in IH.
    destruct (re_split_from_head r [HASH]) as (p & ps & Hp).
    rewrite Hp in *. constructor; [simpl; eauto | exact IH].
  - apply IH.
Qed.

(** X2: every part after the first begins with a hash sign. *)
Theorem X2_later_parts_start_with_hash (s : str) :
  Forall (fun p => exists r, p = HASH :: r) (tl (re_split_headings s)).
Proof. apply re_split_from_tail_hash. Qed.

(** A short heading line can be cut off before its whitespace: the part
    is then the hashes alone, which the heading test does not accept. *)
Example bare_hash_part :
  re_split_headings (text ["a"; "#"; "# x"]) = [lit "a"; lit "#"; lit "# x"]
  /\ re_match_heading (lit "#") = false.
Proof. split; reflexivity. Qed.

(** *** Trimming *)

Lemma left_trimmed_head (s : str) :
  left_trimmed s -> s = [] \/ head_nonspace s.
Proof.
  unfold left_trimmed. destruct s as [|c s]; [now left|]. simpl.
  destruct (isspace c) eqn:E; [|now right].
  intros H. exfalso.
  assert (Hlen : (List.length (lstrip s) <= List.length s)%nat).
  { clear. induction s as [|d s IH]; simpl; [lia|].
    destruct (isspace d); simpl; lia. }
  rewrite H in Hlen. simpl in Hlen. lia.
Qed.

Lemma left_trimmed_lstrip (s : str) : left_trimmed (lstrip s).
Proof. apply lstrip_idem. Qed.

Lemma rstrip_single (c : char) : isspace c = false -> rstrip [c] = [c].
Proof. intros H. unfold rstrip. simpl. now rewrite H. Qed.

Lemma left_trimmed_rstrip (s : str) :
  left_trimmed s -> left_trimmed (rstrip s).
Proof.
  intros H. destruct (left_trimmed_head s H) as [->|Hh]; [reflexivity|].
  destruct s as [|c r]; [contradiction|]. simpl in Hh.
  change (c :: r) with ([c] ++ r).
  destruct (rstrip r) as [|d r'] eqn:E.
  - rewrite rstrip_app_space by assumption.
    rewrite rstrip_single by assumption.
    apply lstrip_head_nonspace. exact Hh.
  - rewrite rstrip_app_r by (rewrite E; discriminate).
    apply lstrip_head_nonspace. exact Hh.
Qed.

Lemma left_trimmed_strip (s : str) : left_trimmed (strip s).
Proof. apply left_trimmed_rstrip, left_trimmed_lstrip. Qed.

Lemma strip_idem (s : str) : strip (strip s) = strip s.
Proof.
  unfold strip at 1. rewrite (left_trimmed_strip s). apply right_trimmed_strip.
Qed.

Lemma trimmed_strip (s : str) : trimmed (strip s).
Proof. apply strip_idem. Qed.

Lemma trimmed_left_trimmed (s : str) : trimmed s -> left_trimmed s.
Proof. intros H. rewrite <- H. apply left_trimmed_strip. Qed.

Lemma strip_head_nonspace (s : str) : strip s <> [] -> head_nonspace (strip s).
Proof.
  intros H. destruct (left_trimmed_head _ (left_trimmed_strip s)); tauto.
Qed.

Lemma range_succ (n : Z) :
  1 <= n -> range n = 0 :: map Z.succ (range (n - 1)).
Proof.
  intros Hn. unfold range.
  replace (Z.to_nat n) with (S (Z.to_nat (n - 1))) by lia.
  simpl. f_equal. rewrite <- seq_shift, !map_map.
  apply map_ext. intros i. lia.
Qed.

Lemma range_nonneg (n i : Z) : In i (range n) -> 0 <= i.
Proof.
  unfold range. intros H. apply in_map_iff in H as (k & <- & _). lia.
Qed.

Lemma trimmed_tl_intro_case (parts : list str) (n : Z) :
  Forall trimmed (tl (intro_case parts n)).
Proof.
  unfold intro_case. destruct (Z_lt_ge_dec n 1) as [Hn|Hn].
  - unfold range. replace (Z.to_nat n) with O by lia. constructor.
  - rewrite range_succ by lia. simpl tl.
    apply Forall_map, Forall_map, Forall_forall. intros i Hi.
    apply range_nonneg in Hi.
    replace (Z.succ i =? 0) with false by (symmetry; apply Z.eqb_neq; lia).
    destruct (Z.succ i <? len parts); [apply trimmed_strip | reflexivity].
Qed.

Lemma trimmed_header_case (parts : list str) (n : Z) :
  0 <= n -> Forall trimmed (header_case parts n).
Proof.
  intros Hn. rewrite header_case_spec by assumption.
  apply Forall_app. split.
  - apply Forall_map, Forall_forall. intros p _. apply trimmed_strip.
  - apply Forall_forall. intros p Hp. apply repeat_spec in Hp. now subst.
Qed.

Lemma Forall_trimmed_times (k : Z) : Forall trimmed (times [] k).
Proof.
  apply Forall_forall. intros p Hp. apply repeat_spec in Hp. now subst.
Qed.

Lemma Forall_tl {A} (P : A -> Prop) (l : list A) :
  Forall P l -> Forall P (tl l).
Proof. destruct 1; [constructor | assumption]. Qed.

Lemma Forall_hd_left_trimmed (l : list str) :
  Forall trimmed l -> left_trimmed (hd [] l).
Proof.
  destruct 1; [reflexivity | now apply trimmed_left_trimmed].
Qed.

(** The first part of a text that starts with a non-space character
    starts with that character. *)
Lemma head_nonspace_first_part (s : str) :
  head_nonspace s -> head_nonspace (item (re_split_headings s) 0).
Proof.
  destruct s as [|c s]; [contradiction|]. intros Hc. simpl in Hc.
  unfold re_split_headings. simpl re_split_from.
  destruct (N.eqb_spec c NL) as [->|Hne]; [discriminate Hc|].
  simpl andb. cbv match.
  destruct (re_split_from_head s [c]) as (p & ps & E). rewrite E.
  exact Hc.
Qed.

(** X3: whatever the blob and the slide count, every returned string but
    the first is trimmed, and the first has no leading whitespace (it can
    only keep trailing whitespace). *)
Theorem X3_segments_trimmed (blob : str) (n : Z) :
  Forall trimmed (tl (split_markdown_by_slides blob n))
  /\ left_trimmed (hd [] (split_markdown_by_slides blob n)).
Proof.
  unfold split_markdown_by_slides.
  destruct (negb (truthy blob) || (n <=? 0)) eqn:E0.
  - destruct (negb (n =? 0)); [|split; [constructor | reflexivity]].
    split; [apply Forall_tl | apply Forall_hd_left_trimmed];
      apply Forall_trimmed_times.
  - apply orb_false_elim in E0 as [_ Hn]. apply Z.leb_gt in Hn.
    cbv zeta. destruct (negb (truthy (strip blob))) eqn:E1.
    + split; [apply Forall_tl | apply Forall_hd_left_trimmed];
        apply Forall_trimmed_times.
    + assert (Hhead : head_nonspace (strip blob)).
      { apply strip_head_nonspace. intros E. now rewrite E in E1. }
      assert (Hheader :
                Forall trimmed
                  (tl (header_case (re_split_headings (strip blob)) n))
                /\ left_trimmed
                     (hd [] (header_case (re_split_headings (strip blob)) n))).
      { split; [apply Forall_tl | apply Forall_hd_left_trimmed];
          apply trimmed_header_case; lia. }
      destruct (truthy (re_split_headings (strip blob))
                && negb (re_match_heading
                           (strip (item (re_split_headings (strip blob)) 0))))
        eqn:E2; [|exact Hheader].
      destruct (len (re_split_headings (strip blob)) <=? n);
        [|exact Hheader].
      split; [apply trimmed_tl_intro_case|].
      unfold intro_case. rewrite range_succ by lia. simpl hd.
      apply andb_prop in E2 as [Ht _]. rewrite Ht.
      apply lstrip_head_nonspace, head_nonspace_first_part, Hhead.
Qed.

(** *** A blob without heading boundaries *)

Lemma re_split_from_no_break (s : str) :
  forall cur,
    has_heading_break s = false -> re_split_from cur s = [rev cur ++ s].
Proof.
  induction s as [|c s IH]; intros cur Hs; simpl in *.
  - now rewrite app_nil_r.
  - apply orb_false_elim in Hs as [Hc Hs]. rewrite Hc, IH by assumption.
    simpl. now rewrite <- app_assoc.
Qed.

Lemma map_const_times {A} (g : A -> str) (l : list A) :
  (forall x, In x l -> g x = []) -> map g l = times [] (len l).
Proof.
  unfold times, len. rewrite Nat2Z.id.
  induction l as [|x l IH]; intros H; [reflexivity|].
  simpl. rewrite H by now left. f_equal. apply IH. intros y Hy.
  apply H. now right.
Qed.

Lemma intro_case_single (x : str) (n : Z) :
  1 <= n -> intro_case [x] n = x :: times [] (n - 1).
Proof.
  intros Hn. unfold intro_case. rewrite range_succ by lia.
  cbn [map]. f_equal. rewrite map_map.
  rewrite map_const_times; [now rewrite len_range by lia|].
  intros i Hi. apply range_nonneg in Hi.
  replace (Z.succ i =? 0) with false by (symmetry; apply Z.eqb_neq; lia).
  replace (Z.succ i <? len [x]) with false; [reflexivity|].
  symmetry. apply Z.ltb_ge. unfold len. simpl. lia.
Qed.

Lemma header_case_single (x : str) (n : Z) :
  1 <= n -> header_case [x] n = strip x :: times [] (n - 1).
Proof.
  intros Hn. rewrite header_case_spec by lia.
  replace (Z.to_nat n) with (S (Z.to_nat (n - 1))) by lia.
  simpl firstn. rewrite firstn_nil. reflexivity.
Qed.

(** X4: a blob that is not blank and has no newline followed by a heading
    marker goes, trimmed, to the first slide; all other slides get the
    empty string. *)
Theorem X4_no_heading_all_on_first_slide (blob : str) (n : Z) :
  1 <= n ->
  strip blob <> [] ->
  has_heading_break (strip blob) = false ->
  split_markdown_by_slides blob n = strip blob :: times [] (n - 1).
Proof.
  intros Hn Hne Hbreak. unfold split_markdown_by_slides.
  assert (Hblob : truthy blob = true).
  { destruct blob; [now contradiction Hne | reflexivity]. }
  assert (Hstripped : truthy (strip blob) = true).
  { destruct (strip blob); [congruence | reflexivity]. }
  rewrite Hblob, Hstripped.
  replace (n <=? 0) with false by (symmetry; apply Z.leb_gt; lia).
  cbn [negb orb]. cbv zeta.
  unfold re_split_headings. rewrite re_split_from_no_break by assumption.
  cbn [rev app].
  change (item [strip blob] 0) with (strip blob).
  rewrite header_case_single, intro_case_single, strip_idem by lia.
  repeat match goal with
         | |- context [if ?b then _ else _] => destruct b
         end; reflexivity.
Qed.

Lemma X4_no_heading_all_on_first_slide_witness :
  split_markdown_by_slides (text ["  plain text"; "second line #1 "]) 3
  = [text ["plain text"; "second line #1"]; []; []].
Proof.
  apply (X4_no_heading_all_on_first_slide
           (text ["  plain text"; "second line #1 "]) 3).
  - lia.
  - vm_compute. discriminate.
  - reflexivity.
Defined.

(** X5: the assembler's own normalisation leaves the segmenter's sections
    as they are, and normalising notes twice changes nothing. *)
Theorem X5_normalisations_compose (blob : str) (raw : list str) (n : Z) :
  1 <= n ->
  normalize_sections (split_markdown_by_slides blob n) n
  = split_markdown_by_slides blob n
  /\ normalize_notes (normalize_notes raw n) n = normalize_notes raw n.
Proof.
  intros Hn.
  assert (Hfix : forall l : list str,
             len l = n -> firstn (Z.to_nat n) l ++ times [] (n - len l) = l).
  { intros l Hl. rewrite Hl, times_nonpos by lia.
    rewrite app_nil_r. apply firstn_all2. unfold len in Hl. lia. }
  split.
  - rewrite normalize_sections_spec by lia.
    apply Hfix, len_split_markdown_by_slides. exact Hn.
  - rewrite (normalize_notes_spec (normalize_notes raw n)) by lia.
    apply Hfix. rewrite normalize_notes_spec by lia.
    apply len_firstn_pad. lia.
Qed.

Lemma X5_normalisations_compose_witness :
  normalize_sections
    (split_markdown_by_slides (text ["# a"; "# b"; "# c"]) 2) 2
  = split_markdown_by_slides (text ["# a"; "# b"; "# c"]) 2
  /\ normalize_notes (normalize_notes [lit "n"] 2) 2
     = normalize_notes [lit "n"] 2.
Proof.
  apply (X5_normalisations_compose (text ["# a"; "# b"; "# c"]) [lit "n"] 2).
  lia.
Defined.

(* ===================================================================== *)
(** ** Further properties of the assembler *)
(* ===================================================================== *)

Lemma rstrip_head_nonspace (s : str) :
  head_nonspace s -> head_nonspace (rstrip s).
Proof.
  destruct s as [|c r]; [contradiction|]. intros Hc. simpl in Hc.
  change (c :: r) with ([c] ++ r).
  destruct (rstrip r) as [|d r'] eqn:E.
  - rewrite rstrip_app_space by assumption.
    now rewrite rstrip_single by assumption.
  - rewrite rstrip_app_r by (rewrite E; discriminate). exact Hc.
Qed.

Lemma strip_app_newline (t : str) :
  trimmed t -> strip (t ++ [NL]) = t.
Proof.
  intros Ht. pose proof (trimmed_left_trimmed t Ht) as Hl.
  destruct (left_trimmed_head t Hl) as [->|Hh]; [reflexivity|].
  unfold strip. rewrite lstrip_head_nonspace
    by (destruct t; [contradiction | exact Hh]).
  rewrite rstrip_app_space by reflexivity.
  unfold trimmed, strip in Ht. unfold left_trimmed in Hl.
  now rewrite Hl in Ht.
Qed.

(** X6: the assembled document is its own trimmed text followed by exactly
    one newline, and with at least one slide that text is not empty. *)
Theorem X6_output_normal_form (pdf_basename : str) (n : Z)
    (notes secs : list str) (title : option str) :
  build_markdown pdf_basename n notes secs title
  = strip (build_markdown pdf_basename n notes secs title) ++ [NL]
  /\ (1 <= n ->
      head_nonspace (build_markdown pdf_basename n notes secs title)
      /\ strip (build_markdown pdf_basename n notes secs title) <> []).
Proof.
  unfold build_markdown. cbv zeta.
  set (J := join [NL] _).
  split; [now rewrite strip_app_newline by apply trimmed_strip|].
  intros Hn.
  assert (Hne : normalize_sections secs n <> []).
  { intros E.
    assert (Hlen : len (normalize_sections secs n) = n)
      by (rewrite normalize_sections_spec by lia; apply len_firstn_pad; lia).
    rewrite E in Hlen. unfold len in Hlen. simpl in Hlen. lia. }
  assert (HJ : head_nonspace J)
    by (apply head_nonspace_lines; exact Hne).
  assert (HS : head_nonspace (strip J)).
  { unfold strip. rewrite lstrip_head_nonspace by assumption.
    now apply rstrip_head_nonspace. }
  rewrite strip_app_newline by apply trimmed_strip.
  split.
  - destruct (strip J); [contradiction | exact HS].
  - intros E. rewrite E in HS. contradiction.
Qed.

Lemma X6_output_normal_form_witness :
  head_nonspace (build_markdown (lit "deck") 1 [] [lit " text "] None)
  /\ strip (build_markdown (lit "deck") 1 [] [lit " text "] None) <> [].
Proof.
  apply (X6_output_normal_form (lit "deck") 1 [] [lit " text "] None). lia.
Defined.

Lemma filter_truthy_nil (notes : list str) :
  filter truthy notes = [] <-> Forall (eq []) notes.
Proof.
  induction notes as [|x notes IH]; simpl.
  - split; [constructor | reflexivity].
  - destruct x as [|c x]; simpl.
    + rewrite IH. split; [now constructor |].
      intros H. now apply Forall_inv_tail in H.
    + split; [discriminate |].
      intros H. apply Forall_inv in H. discriminate H.
Qed.

(** X7: the front-matter block is left out exactly when there is no title
    (none, or the empty string) and every note is empty. *)
Theorem X7_frontmatter_omitted (title : option str) (notes : list str) :
  frontmatter_lines title notes = []
  <-> (title = None \/ title = Some []) /\ Forall (eq []) notes.
Proof.
  unfold frontmatter_lines, frontmatter.
  rewrite <- filter_truthy_nil.
  destruct title as [[|c t]|]; simpl;
    destruct (filter truthy notes) as [|x l]; simpl;
    (split; [intros H; try discriminate H; split; auto
            | intros [H1 H2]; try discriminate H2;
              try (destruct H1 as [H1|H1]; discriminate H1);
              reflexivity]).
Qed.

(** *** Escaping *)

Lemma replace1_app (old : char) (new x y : str) :
  replace1 old new (x ++ y) = replace1 old new x ++ replace1 old new y.
Proof. unfold replace1. apply flat_map_app. Qed.

Lemma escape_title_cons (c : char) (v : str) :
  escape_title (c :: v)
  = (if (c =? BSLASH)%N then [BSLASH; BSLASH]
     else if (c =? QUOTE)%N then [BSLASH; QUOTE] else [c])
    ++ escape_title v.
Proof.
  unfold escape_title.
  change (replace1 BSLASH [BSLASH; BSLASH] (c :: v))
    with ((if (c =? BSLASH)%N then [BSLASH; BSLASH] else [c])
          ++ replace1 BSLASH [BSLASH; BSLASH] v).
  rewrite replace1_app. f_equal.
  destruct (N.eqb_spec c BSLASH) as [->|Hc]; [reflexivity|].
  unfold replace1. simpl. now rewrite app_nil_r.
Qed.

Lemma unescape_escape_title (v : str) : unescape (escape_title v) = v.
Proof.
  induction v as [|c v IH]; [reflexivity|].
  rewrite escape_title_cons.
  destruct (N.eqb_spec c BSLASH) as [->|Hb].
  - simpl. now rewrite IH.
  - destruct (N.eqb_spec c QUOTE) as [->|Hq].
    + simpl. now rewrite IH.
    + simpl. apply N.eqb_neq in Hb. rewrite Hb. now rewrite IH.
Qed.

Lemma unescape_replace_newline (s : str) :
  forall v, s = escape_title v ->
            unescape (replace1 NL [SP] s) = replace1 NL [SP] v.
Proof.
  intros v ->. induction v as [|c v IH]; [reflexivity|].
  rewrite escape_title_cons, replace1_app.
  change (replace1 NL [SP] (c :: v))
    with ((if (c =? NL)%N then [SP] else [c]) ++ replace1 NL [SP] v).
  destruct (N.eqb_spec c BSLASH) as [->|Hb].
  - simpl. now rewrite IH.
  - destruct (N.eqb_spec c QUOTE) as [->|Hq].
    + simpl. now rewrite IH.
    + unfold replace1 at 1. simpl flat_map. rewrite app_nil_r.
      destruct (N.eqb_spec c NL) as [->|Hn].
      * simpl. now rewrite IH.
      * simpl. apply N.eqb_neq in Hb. rewrite Hb. now rewrite IH.
Qed.

(** X8: the escaping of the front matter can be read back: undoing the
    backslash escapes of an escaped title gives the title, and of an
    escaped note gives the note with its newlines turned into spaces. An
    escaped note never holds a newline. *)
Theorem X8_escaping_reads_back (v : str) :
  unescape (escape_title v) = v
  /\ unescape (escape_note v) = replace1 NL [SP] v
  /\ single_line (escape_note v).
Proof.
  split; [apply unescape_escape_title|]. split.
  - unfold escape_note. fold (escape_title v).
    now apply unescape_replace_newline.
  - unfold escape_note. apply single_line_replace1_NL.
    unfold single_line. simpl. intuition discriminate.
Qed.

(* ===================================================================== *)
(** ** Further properties of the adapters and of one conversion *)
(* ===================================================================== *)

Lemma outcome_unit_Ok (m : outcome unit) (a : unit) : m = Ok a -> m = Ok tt.
Proof. now destruct a. Qed.




Lemma exc_class_eqb_eq (a b : exc_class) :
  exc_class_eqb a b = true <-> a = b.
Proof. destruct a, b; simpl; split; congruence. Qed.

(** An import guarded by [except ImportError] raises exactly when the
    import raises something else. *)
Lemma import_guard_raises (import : outcome unit) (e : exc) {A}
    (k : bool -> outcome A) :
  (forall b, k b <> Raise e) ->
  (Py.bind (try_except_of [ImportError] (Py.bind import (fun _ => Ok true))
              (fun _ => Ok false)) k = Raise e
   <-> import = Raise e /\ exc_cls e <> ImportError).
Proof.
  intros Hk. unfold try_except_of, Py.bind.
  destruct import as [[]|e']; simpl.
  - split; [intros H; now apply Hk in H | intros [H _]; discriminate H].
  - rewrite orb_false_r.
    destruct (exc_class_eqb (exc_cls e') ImportError) eqn:E.
    + apply exc_class_eqb_eq in E.
      split; [intros H; now apply Hk in H|].
      intros [H Hne]. injection H as ->. contradiction.
    + split.
      * intros H. injection H as ->. split; [reflexivity|].
        intros Hc. apply exc_class_eqb_eq in Hc. congruence.
      * intros [H _]. now injection H as ->.
Qed.

(** X11: stamping the metadata is cosmetic: [set_pdf_metadata] raises
    exactly when importing pymupdf raises something other than
    ImportError; a missing library, a missing file or any failure while
    opening, saving or moving the PDF is swallowed. *)
Theorem X11_metadata_swallowed (w : world) (e : exc) :
  set_pdf_metadata w = Raise e
  <-> meta_import_fitz w = Raise e /\ exc_cls e <> ImportError.
Proof.
  unfold set_pdf_metadata. apply import_guard_raises.
  intros b. destruct b; simpl; [|discriminate].
  destruct (pdf_is_file w); simpl; [|discriminate].
  unfold try_except. destruct (meta_stamp w); discriminate.
Qed.

(** X12: the page count falls back to 0: [get_pdf_page_count] raises
    exactly when importing pymupdf raises something other than
    ImportError, and a non-zero count is always one that pymupdf read
    from an existing file. *)
Theorem X12_page_count_fallback (w : world) :
  (forall e, get_pdf_page_count w = Raise e
             <-> count_import_fitz w = Raise e /\ exc_cls e <> ImportError)
  /\ (forall n, get_pdf_page_count w = Ok n -> n <> 0 ->
                count_import_fitz w = Ok tt
                /\ pdf_is_file w = true
                /\ count_open_len w = Ok n).
Proof.
  split.
  - intros e. unfold get_pdf_page_count. apply import_guard_raises.
    intros b. destruct b; simpl; [|discriminate].
    destruct (pdf_is_file w); simpl; [|discriminate].
    unfold try_except. destruct (count_open_len w); discriminate.
  - intros n H Hn. unfold get_pdf_page_count, try_except_of, try_except,
      Py.bind in H.
    destruct (count_import_fitz w) as [[]|e]; simpl in H.
    + destruct (pdf_is_file w); simpl in H;
        [|injection H as <-; congruence].
      destruct (count_open_len w) as [k|];
        injection H as <-; [auto | congruence].
    + destruct (exc_class_eqb (exc_cls e) ImportError); simpl in H;
        [injection H as <-; congruence | discriminate].
Qed.

Lemma X12_page_count_fallback_witness :
  count_import_fitz (sample_world (Ok tt) (Ok tt) (fun _ => Ok tt)) = Ok tt
  /\ pdf_is_file (sample_world (Ok tt) (Ok tt) (fun _ => Ok tt)) = true
  /\ count_open_len (sample_world (Ok tt) (Ok tt) (fun _ => Ok tt)) = Ok 1.
Proof.
  apply (proj2 (X12_page_count_fallback
                  (sample_world (Ok tt) (Ok tt) (fun _ => Ok tt))) 1);
    [reflexivity | discriminate].
Defined.

Lemma trimmed_notes_text (s : slide) : trimmed (_notes_text s).
Proof.
  unfold _notes_text. destruct (has_notes_slide s); [|reflexivity].
  destruct (notes_text s) as [[t|]|]; simpl;
    first [apply trimmed_strip | reflexivity].
Qed.

(** X13: every speaker note returned is trimmed; a path that is not a
    file gives no notes and a slide count of 0; and when both reads of the
    presentation see the same slides, there is one note per counted
    slide. *)
Theorem X13_speaker_notes (w : world) :
  Forall trimmed (get_speaker_notes w)
  /\ (pptx_is_file w = false ->
      get_speaker_notes w = [] /\ get_slide_count w = 0)
  /\ (count_presentation w = notes_presentation w ->
      len (get_speaker_notes w) = get_slide_count w).
Proof.
  unfold get_speaker_notes, get_slide_count. split; [|split].
  - destruct (pptx_is_file w); simpl; [|constructor].
    destruct (notes_presentation w); [|constructor].
    apply Forall_map, Forall_forall. intros s _. apply trimmed_notes_text.
  - now intros ->.
  - intros ->. destruct (pptx_is_file w); simpl; [|reflexivity].
    destruct (notes_presentation w); [apply len_map | reflexivity].
Qed.

Lemma X13_speaker_notes_witness :
  len (get_speaker_notes (sample_world (Ok tt) (Ok tt) (fun _ => Ok tt)))
  = get_slide_count (sample_world (Ok tt) (Ok tt) (fun _ => Ok tt)).
Proof.
  apply (X13_speaker_notes (sample_world (Ok tt) (Ok tt) (fun _ => Ok tt))).
  reflexivity.
Defined.

Lemma convert_one_try_success (w : world) (p q : str) :
  convert_one_try w p = Ok (Result true q None)
  <-> q = p
      /\ (exists pdf, convert_pptx_to_pdf w = Ok (Some pdf))
      /\ set_pdf_metadata w = Ok tt
      /\ exists n, resolved_slide_count w = Ok n
                   /\ 1 <= n
                   /\ write_text w (markdown_content w n) = Ok tt.
Proof.
  unfold convert_one_try, resolved_slide_count, markdown_content. split.
  - intros H. apply bind_Ok in H as ([pdf|] & Hpdf & H); [|discriminate].
    apply bind_Ok in H as ([] & Hmeta & H).
    apply bind_Ok in H as (n & Hn & H).
    destruct (n <=? 0) eqn:En; [discriminate|]. apply Z.leb_gt in En.
    apply bind_Ok in H as ([] & Hw & H). injection H as <-.
    repeat split; eauto. exists n. repeat split; [assumption | lia | assumption].
  - intros (-> & [pdf ->] & -> & n & -> & Hn & Hw). simpl.
    replace (n <=? 0) with false by (symmetry; apply Z.leb_gt; lia).
    now rewrite Hw.
Qed.

Lemma convert_one_success (w : world) (md : option unit) (p : str) :
  convert_one w md = Ok (Result true p None)
  <-> resolve_pptx w = Ok p
      /\ (exists o, resolve_output_dir w = Ok o)
      /\ (md = None -> new_markitdown w = Ok tt)
      /\ (exists pdf, convert_pptx_to_pdf w = Ok (Some pdf))
      /\ set_pdf_metadata w = Ok tt
      /\ exists n, resolved_slide_count w = Ok n
                   /\ 1 <= n
                   /\ write_text w (markdown_content w n) = Ok tt.
Proof.
  unfold convert_one. split.
  - intros H. apply bind_Ok in H as (p' & Hp & H).
    apply bind_Ok in H as (o & Ho & H).
    apply bind_Ok in H as ([] & Hmd & H).
    unfold try_except in H.
    destruct (convert_one_try w p') as [r|e] eqn:E; [|discriminate].
    injection H as ->. apply convert_one_try_success in E as (-> & E).
    split; [exact Hp|]. split; [eauto|]. split; [|exact E].
    intros ->. exact Hmd.
  - intros (-> & [o ->] & Hmd & E). simpl.
    assert (Hm : match md with
                 | Some md0 => Ok md0
                 | None => new_markitdown w
                 end = Ok tt).
    { destruct md as [[]|]; [reflexivity | now apply Hmd]. }
    rewrite Hm. simpl.
    assert (E' : convert_one_try w p = Ok (Result true p None))
      by (apply convert_one_try_success; split; [reflexivity | exact E]).
    now rewrite E'.
Qed.

(** X14: one conversion ends in success exactly when the input path and
    the output directory resolve, an extractor is at hand, the renderer
    returned a PDF, stamping did not raise, the resolved slide count is at
    least 1, and the Markdown text for that many slides was written. *)
Theorem X14_success_means_written (w : world) (md : option unit) (p : str) :
  convert_one w md = Ok (Result true p None)
  <-> resolve_pptx w = Ok p
      /\ (exists o, resolve_output_dir w = Ok o)
      /\ (md = None -> new_markitdown w = Ok tt)
      /\ (exists pdf, convert_pptx_to_pdf w = Ok (Some pdf))
      /\ set_pdf_metadata w = Ok tt
      /\ exists n, resolved_slide_count w = Ok n
                   /\ 1 <= n
                   /\ write_text w (markdown_content w n) = Ok tt.
Proof. apply convert_one_success. Qed.

Lemma X14_success_means_written_witness :
  exists n,
    resolved_slide_count (sample_world (Ok tt) (Ok tt) (fun _ => Ok tt)) = Ok n
    /\ 1 <= n
    /\ write_text (sample_world (Ok tt) (Ok tt) (fun _ => Ok tt))
         (markdown_content (sample_world (Ok tt) (Ok tt) (fun _ => Ok tt)) n)
       = Ok tt.
Proof.
  apply (proj1 (X14_success_means_written
                  (sample_world (Ok tt) (Ok tt) (fun _ => Ok tt)) None
                  (lit "/in/deck.pptx"))).
  reflexivity.
Defined.

(** X15: when python-pptx yields no slide count (the path is not a file,
    or the presentation cannot be read) and pymupdf is not installed, a
    conversion never succeeds, whatever the renderer produced. *)
Theorem X15_no_count_no_success (w : world) (md : option unit) (r : result)
    (msg : str) :
  (pptx_is_file w = false \/ exists e, count_presentation w = Raise e) ->
  count_import_fitz w = Raise (Exc ImportError msg) ->
  convert_one w md = Ok r ->
  success r = false.
Proof.
  intros Hcount Hfitz Hr.
  destruct (success r) eqn:Es; [exfalso | reflexivity].
  pose proof (convert_one_invariant w md r Hr) as [Hnone _].
  specialize (Hnone Es). destruct r as [s p err]. simpl in *. subst s err.
  apply convert_one_success in Hr
    as (_ & _ & _ & _ & _ & n & Hn & Hpos & _).
  assert (H0 : get_slide_count w = 0).
  { unfold get_slide_count. destruct Hcount as [->|[e ->]];
      [reflexivity | now destruct (pptx_is_file w)]. }
  unfold resolved_slide_count in Hn. rewrite H0 in Hn. simpl in Hn.
  unfold get_pdf_page_count, try_except_of, Py.bind in Hn.
  rewrite Hfitz in Hn. simpl in Hn. injection Hn as <-. lia.
Qed.

Lemma X15_no_count_no_success_witness :
  convert_one legacy_world None
  = Ok (Result false (lit "/in/old.ppt")
          (Some (lit "No slides found or invalid file")))
  /\ success (Result false (lit "/in/old.ppt")
                (Some (lit "No slides found or invalid file"))) = false.
Proof.
  split; [reflexivity|].
  apply (X15_no_count_no_success legacy_world None _
           (lit "No module named fitz")).
  - right. eexists. reflexivity.
  - reflexivity.
  - reflexivity.
Defined.

Lemma embed_free_times (pdf_basename : str) (k : Z) :
  Forall (embed_free pdf_basename) (times [] k).
Proof.
  apply Forall_forall. intros s Hs. apply repeat_spec in Hs. now subst.
Qed.

(** X16: a failing extractor costs only the text: when it raises or
    returns no text, every section is the empty string, and the document
    for [N >= 1] slides still holds exactly the embed references to the
    pages [1..N] (for a file stem without a newline). *)
Theorem X16_extraction_failure_harmless (w : world) (n : Z) :
  (markitdown_convert w = Ok None \/ exists e, markitdown_convert w = Raise e) ->
  1 <= n ->
  single_line (stem w) ->
  split_markdown_by_slides (semantic_body w) n = times [] n
  /\ parse_embeds (stem w) (markdown_content w n) = pages n.
Proof.
  intros Hmd Hn Hstem.
  assert (Hbody : semantic_body w = []).
  { unfold semantic_body. now destruct Hmd as [->|[e ->]]. }
  assert (Hsplit : split_markdown_by_slides (semantic_body w) n = times [] n).
  { rewrite Hbody. unfold split_markdown_by_slides. simpl.
    replace (n =? 0) with false by (symmetry; apply Z.eqb_neq; lia).
    simpl. now rewrite Z.max_r by lia. }
  split; [exact Hsplit|].
  unfold markdown_content. rewrite Hsplit.
  apply parse_build_markdown; try assumption.
  - intros t [= <-]. exact Hstem.
  - apply embed_free_times.
Qed.

Lemma X16_extraction_failure_harmless_witness :
  split_markdown_by_slides (semantic_body legacy_world) 2 = [[]; []]
  /\ parse_embeds (stem legacy_world) (markdown_content legacy_world 2)
     = [1; 2].
Proof.
  apply (X16_extraction_failure_harmless legacy_world 2).
  - right. eexists. reflexivity.
  - lia.
  - unfold single_line. simpl. intuition discriminate.
Defined.

(* ===================================================================== *)
(** ** Further properties of the batch scheduler *)
(* ===================================================================== *)

(** X17: for a non-empty file set the worker count lies between 1 and the
    number of files whatever the processor count is reported as, so the
    executor is never given a non-positive size; an unknown processor
    count gives one worker. *)
Theorem X17_worker_count_in_range (cpu : option Z) (F : Z) :
  1 <= F ->
  1 <= max_workers cpu F <= F /\ max_workers None F = 1.
Proof.
  intros HF. unfold max_workers. split; [|lia].
  destruct cpu as [c|]; [destruct (c =? 0)|]; lia.
Qed.

Lemma X17_worker_count_in_range_witness :
  1 <= max_workers (Some (-3)) 4 <= 4 /\ max_workers None 4 = 1.
Proof. apply (X17_worker_count_in_range (Some (-3)) 4). lia. Defined.

Lemma run_without_renderer (w : batch_world) (input_path : str)
    (mirror : bool) (cb : option (Z -> Z -> option result -> outcome unit))
    (f : str) (fs : list str) :
  discover w input_path = Ok (f :: fs) ->
  renderer w = None ->
  run_conversion w input_path mirror cb
  = ([EvCheckRenderer],
     Raise (Exc RuntimeError
              (lit "LibreOffice was not found. Please install it or set LIBREOFFICE_PATH."))).
Proof.
  intros Hd Hr. unfold run_conversion, lift, check_libreoffice_installed.
  rewrite Hd, Hr. reflexivity.
Qed.

(** X18: with files to convert and no renderer installed, the run does
    the availability check and raises the RuntimeError: no pool is
    created, no conversion starts and no progress is reported. *)
Theorem X18_renderer_missing (w : batch_world) (input_path : str)
    (mirror : bool) (cb : option (Z -> Z -> option result -> outcome unit))
    (f : str) (fs : list str) :
  discover w input_path = Ok (f :: fs) ->
  renderer w = None ->
  run_conversion w input_path mirror cb
  = ([EvCheckRenderer],
     Raise (Exc RuntimeError
              (lit "LibreOffice was not found. Please install it or set LIBREOFFICE_PATH."))).
Proof.
  intros Hd Hr. now apply run_without_renderer with (f := f) (fs := fs).
Qed.

Lemma X18_renderer_missing_witness :
  run_conversion no_renderer_batch (lit "/in/deck.pptx") false None
  = ([EvCheckRenderer],
     Raise (Exc RuntimeError
              (lit "LibreOffice was not found. Please install it or set LIBREOFFICE_PATH."))).
Proof.
  apply (X18_renderer_missing no_renderer_batch (lit "/in/deck.pptx") false
           None (lit "/in/deck.pptx") []);
    reflexivity.
Defined.

Lemma progress_calls_app (a b : list event) :
  progress_calls (a ++ b) = progress_calls a ++ progress_calls b.
Proof. apply flat_map_app. Qed.

Lemma conversions_app (a b : list event) :
  conversions (a ++ b) = conversions a ++ conversions b.
Proof. apply flat_map_app. Qed.

(** The events and the tally of one pass through the collection loop. *)
Lemma collect_one_spec (w : batch_world)
    (cb : option (Z -> Z -> option result -> outcome unit))
    (total : Z) (t : tally) (task : str * str) :
  quiet cb ->
  collect_one w cb total t task
  = (match cb with
     | Some _ => [EvProgress (completed t + 1) total (task_record w task)]
     | None => []
     end,
     Ok (Tally (success_count t + (if succeeded w task then 1 else 0))
           (failed t ++ failure_entry w task)
           (completed t + 1))).
Proof.
  intros Hq. unfold collect_one, succeeded, task_record, failure_entry.
  destruct (future_result w task) as [r|e]; [destruct (success r)|];
    cbn [success_count failed completed];
    rewrite ?Z.add_0_r, ?app_nil_r;
    (destruct cb as [f|];
     [unfold emit, lift, ret, rbind; now rewrite (Hq f _ _ _ eq_refl)
     | reflexivity]).
Qed.

(** The events and the tally of the whole collection loop, over the
    futures in the order they complete. *)
Lemma collect_spec (w : batch_world)
    (cb : option (Z -> Z -> option result -> outcome unit)) (total : Z) :
  quiet cb ->
  forall (done : list (str * str)) (t : tally),
    collect w cb total t done
    = (match cb with
       | Some _ =>
           map (fun it => EvProgress (fst it) total (task_record w (snd it)))
               (enumerate (completed t + 1) done)
       | None => []
       end,
       Ok (Tally (success_count t + len (filter (succeeded w) done))
             (failed t ++ flat_map (failure_entry w) done)
             (completed t + len done))).
Proof.
  intros Hq. induction done as [|task done IH]; intros t.
  - cbn [collect enumerate map filter flat_map]. unfold ret, len.
    cbn [List.length Z.of_nat]. rewrite !Z.add_0_r, app_nil_r.
    destruct t; now destruct cb.
  - cbn [collect]. rewrite (collect_one_spec w cb total t task Hq).
    cbn [rbind]. rewrite IH. cbn [success_count failed completed].
    cbn [enumerate map filter flat_map fst snd].
    assert (Hlen : len (task :: done) = len done + 1)
      by (unfold len; simpl List.length; lia).
    rewrite Hlen. f_equal.
    + now destruct cb.
    + f_equal. rewrite <- app_assoc. f_equal; [|lia].
      destruct (succeeded w task).
      * assert (Hl : len (task :: filter (succeeded w) done)
                     = len (filter (succeeded w) done) + 1)
          by (unfold len; simpl List.length; lia).
        rewrite Hl. lia.
      * lia.
Qed.

Lemma submit_all_spec (w : batch_world) (tasks : list (str * str)) :
  (forall p, submit_error w p = None) ->
  submit_all w tasks
  = (map (fun task => EvConvert (fst task) (snd task)) tasks, Ok tt).
Proof.
  intros Hs. induction tasks as [|[p o] tasks IH]; [reflexivity|].
  cbn [submit_all]. rewrite Hs, IH. reflexivity.
Qed.

Lemma create_pool_spec (w : batch_world) (workers : Z) :
  1 <= workers ->
  system_limits w = Ok tt ->
  (platform_win32 w = false \/ workers <= 61) ->
  pool_start w = Ok tt ->
  create_pool w workers = ([EvPool workers], Ok tt).
Proof.
  intros H1 Hlim Hwin Hstart. unfold create_pool. rewrite Hlim.
  unfold lift at 1. cbn [rbind app].
  replace (workers <=? 0) with false by (symmetry; apply Z.leb_gt; lia).
  replace (platform_win32 w && (61 <? workers)) with false.
  - rewrite Hstart. reflexivity.
  - symmetry. destruct Hwin as [->|H]; [reflexivity|].
    apply andb_false_iff. right. apply Z.ltb_ge. lia.
Qed.

Lemma max_workers_bounds (cpu : option Z) (F : Z) :
  1 <= F -> 1 <= max_workers cpu F /\ max_workers cpu F <= F.
Proof.
  intros HF. unfold max_workers.
  destruct cpu as [c|]; [destruct (c =? 0)|]; lia.
Qed.

Lemma len_make_tasks (w : batch_world) (mirror : bool) (ob : str)
    (files : list str) :
  len (make_tasks w mirror ob files) = len files.
Proof.
  unfold make_tasks. destruct (mirror && input_is_dir w); apply len_map.
Qed.

Lemma map_fst_make_tasks (w : batch_world) (mirror : bool) (ob : str)
    (files : list str) :
  map fst (make_tasks w mirror ob files) = files.
Proof.
  unfold make_tasks. destruct (mirror && input_is_dir w);
    rewrite map_map; simpl; apply map_id.
Qed.

Lemma truthy_nonempty {A} (l : list A) : l <> [] -> truthy l = true.
Proof. destruct l; [congruence | reflexivity]. Qed.

Lemma len_nonempty {A} (l : list A) : l <> [] -> 1 <= len l.
Proof.
  destruct l; [congruence|]. intros _. unfold len. simpl List.length. lia.
Qed.

Lemma conversions_submitted (tasks : list (str * str)) :
  conversions (map (fun task => EvConvert (fst task) (snd task)) tasks)
  = tasks.
Proof.
  induction tasks as [|[p o] tasks IH]; [reflexivity|].
  cbn [map conversions flat_map fst snd app]. f_equal. exact IH.
Qed.

Lemma progress_calls_submitted (tasks : list (str * str)) :
  progress_calls (map (fun task => EvConvert (fst task) (snd task)) tasks)
  = [].
Proof. induction tasks as [|task tasks IH]; [reflexivity | exact IH]. Qed.

Lemma progress_calls_reported (w : batch_world) (total : Z)
    (l : list (Z * (str * str))) :
  progress_calls
    (map (fun it => EvProgress (fst it) total (task_record w (snd it))) l)
  = map (fun it => (fst it, total, task_record w (snd it))) l.
Proof.
  induction l as [|it l IH]; [reflexivity|].
  cbn [map progress_calls flat_map app]. f_equal. exact IH.
Qed.

Lemma len_enumerate {A} (l : list A) :
  forall start, len (enumerate start l) = len l.
Proof.
  induction l as [|x l IH]; intros start; [reflexivity|].
  cbn [enumerate]. unfold len in *. simpl List.length.
  specialize (IH (start + 1)). lia.
Qed.

(** The collection loop hands nothing to the pool, however it ends. *)
Lemma conversions_collect_one (w : batch_world)
    (cb : option (Z -> Z -> option result -> outcome unit))
    (total : Z) (t : tally) (task : str * str) :
  conversions (fst (collect_one w cb total t task)) = [].
Proof.
  unfold collect_one.
  destruct (future_result w task) as [r|e]; [destruct (success r)|];
    (destruct cb as [f|]; [|reflexivity]);
    unfold emit, lift, ret, rbind;
    match goal with |- context [f ?a ?b ?c] => destruct (f a b c) end;
    reflexivity.
Qed.

Lemma conversions_collect (w : batch_world)
    (cb : option (Z -> Z -> option result -> outcome unit)) (total : Z)
    (done : list (str * str)) :
  forall t, conversions (fst (collect w cb total t done)) = [].
Proof.
  induction done as [|task done IH]; intros t; [reflexivity|].
  cbn [collect]. pose proof (conversions_collect_one w cb total t task) as H1.
  destruct (collect_one w cb total t task) as [evs [t1|e]];
    cbn [rbind fst] in *; [|exact H1].
  specialize (IH t1).
  destruct (collect w cb total t1 done) as [evs' r]. cbn [fst] in *.
  now rewrite conversions_app, H1, IH.
Qed.

Section Run.
Variables (w : batch_world) (input_path : str) (mirror : bool).
Variable cb : option (Z -> Z -> option result -> outcome unit).
Variables (files : list str) (soffice ob : str).
Hypothesis discovered : discover w input_path = Ok files.
Hypothesis some_file : files <> [].
Hypothesis renderer_found : renderer w = Some soffice.
Hypothesis output_base_ok : output_base_resolved w = Ok ob.
Hypothesis pool_is_ready :
  pool_ready w (max_workers (cpu_count w) (len files)).

(** A run up to the collection loop: the check, the pool, and every task
    handed to the pool in order. *)
Lemma run_conversion_unfold :
  run_conversion w input_path mirror cb
  = (let (evs, r) :=
       collect w cb (len (make_tasks w mirror ob files)) (Tally 0 [] 0)
         (as_completed w (make_tasks w mirror ob files)) in
     (EvCheckRenderer
      :: EvPool (max_workers (cpu_count w) (len files))
      :: map (fun task => EvConvert (fst task) (snd task))
           (make_tasks w mirror ob files) ++ evs,
      match r with
      | Ok t => Ok (success_count t, failed t)
      | Raise e => Raise e
      end)).
Proof.
  destruct pool_is_ready as (Hlim & Hwin & Hstart & Hsubmit).
  pose proof (len_nonempty files some_file) as Hfiles.
  pose proof (truthy_nonempty files some_file) as Ht.
  destruct (max_workers_bounds (cpu_count w) (len files) Hfiles) as [Hw _].
  unfold run_conversion, lift, check_libreoffice_installed.
  rewrite discovered. cbn [rbind]. rewrite Ht. cbn [negb].
  rewrite renderer_found, output_base_ok.
  unfold emit at 1, ret at 1. cbn [rbind app negb].
  rewrite (create_pool_spec w _ Hw Hlim Hwin Hstart).
  rewrite (submit_all_spec w _ Hsubmit). cbn [rbind app].
  destruct (collect w cb (len (make_tasks w mirror ob files)) (Tally 0 [] 0)
              (as_completed w (make_tasks w mirror ob files)))
    as [evs [t|e]]; unfold ret; cbn [rbind app];
    rewrite ?app_nil_r; reflexivity.
Qed.

(** A run whose progress callback does not raise: its events and what it
    returns, read off the futures in completion order. *)
Lemma run_conversion_spec :
  quiet cb ->
  run_conversion w input_path mirror cb
  = (EvCheckRenderer
     :: EvPool (max_workers (cpu_count w) (len files))
     :: map (fun task => EvConvert (fst task) (snd task))
          (make_tasks w mirror ob files)
     ++ match cb with
        | Some _ =>
            map (fun it => EvProgress (fst it) (len files)
                             (task_record w (snd it)))
                (enumerate 1 (as_completed w (make_tasks w mirror ob files)))
        | None => []
        end,
     Ok (len (filter (succeeded w)
                (as_completed w (make_tasks w mirror ob files))),
         flat_map (failure_entry w)
           (as_completed w (make_tasks w mirror ob files)))).
Proof.
  intros Hq. rewrite run_conversion_unfold.
  rewrite (collect_spec w cb _ Hq). cbn [success_count failed completed].
  rewrite len_make_tasks. reflexivity.
Qed.

End Run.

Lemma failure_entry_has_message (w : batch_world) (task : str * str) :
  Forall has_message (failure_entry w task).
Proof.
  unfold failure_entry, future_result.
  destruct (future_error w (fst task)) as [e|].
  - constructor; [now exists (exc_str e) | constructor].
  - destruct (convert_one_worker (file_world w (fst task)) (Some tt)
                (fst task)) as [r|e] eqn:E.
    + destruct (success r) eqn:Es; [constructor|].
      destruct (convert_one_worker_invariant _ _ _ _ E) as [_ Hf].
      constructor; [exact (Hf Es) | constructor].
    + constructor; [now exists (exc_str e) | constructor].
Qed.

(** Each task adds one to the success count or one entry to the failed
    list, never both. *)
Lemma len_successes_failures (w : batch_world) (l : list (str * str)) :
  len (filter (succeeded w) l) + len (flat_map (failure_entry w) l) = len l.
Proof.
  induction l as [|task l IH]; [reflexivity|].
  cbn [filter flat_map]. rewrite len_app.
  assert (Hl : len (task :: l) = len l + 1)
    by (unfold len; simpl List.length; lia).
  rewrite Hl.
  assert (H1 : (if succeeded w task then 1 else 0)
               + len (failure_entry w task) = 1).
  { unfold succeeded, task_record, failure_entry.
    destruct (future_result w task) as [r|e]; [destruct (success r)|];
      reflexivity. }
  destruct (succeeded w task).
  - assert (Hs : len (task :: filter (succeeded w) l)
                 = len (filter (succeeded w) l) + 1)
      by (unfold len; simpl List.length; lia).
    rewrite Hs. lia.
  - lia.
Qed.

Lemma no_failure_iff_all_succeeded (w : batch_world) (l : list (str * str)) :
  truthy (flat_map (failure_entry w) l) = negb (forallb (succeeded w) l).
Proof.
  induction l as [|task l IH]; [reflexivity|].
  cbn [flat_map forallb].
  assert (H1 : failure_entry w task = [] /\ succeeded w task = true
               \/ (exists x, failure_entry w task = [x])
                  /\ succeeded w task = false).
  { unfold succeeded, task_record, failure_entry.
    destruct (future_result w task) as [r|e]; [destruct (success r)|]; eauto. }
  destruct H1 as [[-> ->]|[[x ->] ->]]; [exact IH | reflexivity].
Qed.

Lemma forallb_Permutation {A} (f : A -> bool) (l l' : list A) :
  Permutation l l' -> forallb f l = forallb f l'.
Proof.
  induction 1; simpl; try congruence.
  now rewrite !andb_assoc, (andb_comm (f y)).
Qed.

Lemma len_filter_Permutation {A} (f : A -> bool) (l l' : list A) :
  Permutation l l' -> len (filter f l) = len (filter f l').
Proof.
  intros H. unfold len. f_equal. apply Permutation_length.
  induction H; simpl.
  - constructor.
  - destruct (f x); [now constructor | assumption].
  - destruct (f x), (f y); try apply Permutation_refl. apply perm_swap.
  - eapply Permutation_trans; eauto.
Qed.

(** X19: once the pool is created and has accepted every task, and with
    a progress callback that does not raise, a run never raises, whatever
    the conversions and their futures do. It returns the number of tasks
    whose record says success and, for the others in completion order,
    one failed entry each: every file is accounted for exactly once. *)
Theorem X19_every_file_accounted (w : batch_world) (input_path : str)
    (mirror : bool) (cb : option (Z -> Z -> option result -> outcome unit))
    (files : list str) (soffice ob : str) :
  discover w input_path = Ok files ->
  files <> [] ->
  renderer w = Some soffice ->
  output_base_resolved w = Ok ob ->
  pool_ready w (max_workers (cpu_count w) (len files)) ->
  quiet cb ->
  Permutation (as_completed w (make_tasks w mirror ob files))
              (make_tasks w mirror ob files) ->
  exists evs s failed,
    run_conversion w input_path mirror cb = (evs, Ok (s, failed))
    /\ s = len (filter (succeeded w) (make_tasks w mirror ob files))
    /\ failed = flat_map (failure_entry w)
                  (as_completed w (make_tasks w mirror ob files))
    /\ s + len failed = len files.
Proof.
  intros H1 H2 H3 H4 H5 H6 H7.
  rewrite (run_conversion_spec w input_path mirror cb files soffice ob
             H1 H2 H3 H4 H5 H6).
  do 3 eexists. split; [reflexivity|].
  split; [now apply len_filter_Permutation|]. split; [reflexivity|].
  rewrite len_successes_failures.
  unfold len. rewrite (Permutation_length H7). fold (len (make_tasks w mirror ob files)).
  apply len_make_tasks.
Qed.

Lemma X19_every_file_accounted_witness :
  exists evs s failed,
    run_conversion mixed_decks (lit "/in") true None = (evs, Ok (s, failed))
    /\ s = len (filter (succeeded mixed_decks)
                  (make_tasks mixed_decks true (lit "/out")
                     [lit "/in/a.pptx"; lit "/in/sub/b.ppt"]))
    /\ failed = flat_map (failure_entry mixed_decks)
                  (as_completed mixed_decks
                     (make_tasks mixed_decks true (lit "/out")
                        [lit "/in/a.pptx"; lit "/in/sub/b.ppt"]))
    /\ s + len failed = len [lit "/in/a.pptx"; lit "/in/sub/b.ppt"].
Proof.
  apply (X19_every_file_accounted mixed_decks (lit "/in") true None
           [lit "/in/a.pptx"; lit "/in/sub/b.ppt"]
           (lit "/usr/bin/soffice") (lit "/out")).
  - reflexivity.
  - discriminate.
  - reflexivity.
  - reflexivity.
  - repeat split; [left; reflexivity].
  - intros f c t r H. discriminate H.
  - apply Permutation_sym, Permutation_rev.
Defined.

(** The run of [mixed_decks]: both files handed to the pool with their
    mirrored directories, b.ppt reported first, one success and one
    failure. *)
Example run_conversion_mixed_decks :
  run_conversion mixed_decks (lit "/in") true (Some (fun _ _ _ => Ok tt))
  = ([EvCheckRenderer; EvPool 2;
      EvConvert (lit "/in/a.pptx") (lit "/out");
      EvConvert (lit "/in/sub/b.ppt") (lit "/out/sub");
      EvProgress 1 2
        (Some (Result false (lit "/in/sub/b.ppt")
                 (Some (lit "PDF conversion failed (LibreOffice)"))));
      EvProgress 2 2 (Some (Result true (lit "/in/a.pptx") None))],
     Ok (1, [(lit "/in/sub/b.ppt",
              Some (lit "PDF conversion failed (LibreOffice)"))])).
Proof. reflexivity. Qed.

(** X20: under the same conditions the progress callback is called once
    per completed future, in completion order, with the running count
    1, 2, ..., the number of files as total, and the record of that
    future's task (or None when the future raised); that makes one call
    per file. *)
Theorem X20_progress_calls (w : batch_world) (input_path : str)
    (mirror : bool) (f : Z -> Z -> option result -> outcome unit)
    (files : list str) (soffice ob : str) :
  discover w input_path = Ok files ->
  files <> [] ->
  renderer w = Some soffice ->
  output_base_resolved w = Ok ob ->
  pool_ready w (max_workers (cpu_count w) (len files)) ->
  quiet (Some f) ->
  Permutation (as_completed w (make_tasks w mirror ob files))
              (make_tasks w mirror ob files) ->
  progress_calls (fst (run_conversion w input_path mirror (Some f)))
  = map (fun it => (fst it, len files, task_record w (snd it)))
        (enumerate 1 (as_completed w (make_tasks w mirror ob files)))
  /\ len (progress_calls (fst (run_conversion w input_path mirror (Some f))))
     = len files.
Proof.
  intros H1 H2 H3 H4 H5 H6 H7.
  rewrite (run_conversion_spec w input_path mirror (Some f) files soffice ob
             H1 H2 H3 H4 H5 H6).
  cbn [fst].
  cbn [progress_calls flat_map app].
  fold (progress_calls
          (map (fun task => EvConvert (fst task) (snd task))
             (make_tasks w mirror ob files)
           ++ map (fun it => EvProgress (fst it) (len files)
                               (task_record w (snd it)))
                (enumerate 1
                   (as_completed w (make_tasks w mirror ob files))))).
  rewrite progress_calls_app, progress_calls_submitted,
    progress_calls_reported. cbn [app]. split; [reflexivity|].
  rewrite len_map, len_enumerate.
  unfold len. rewrite (Permutation_length H7).
  fold (len (make_tasks w mirror ob files)). apply len_make_tasks.
Qed.

Lemma X20_progress_calls_witness :
  progress_calls
    (fst (run_conversion mixed_decks (lit "/in") true
            (Some (fun _ _ _ => Ok tt))))
  = [(1, 2, Some (Result false (lit "/in/sub/b.ppt")
                    (Some (lit "PDF conversion failed (LibreOffice)"))));
     (2, 2, Some (Result true (lit "/in/a.pptx") None))]
  /\ len (progress_calls
            (fst (run_conversion mixed_decks (lit "/in") true
                    (Some (fun _ _ _ => Ok tt))))) = 2.
Proof.
  apply (X20_progress_calls mixed_decks (lit "/in") true (fun _ _ _ => Ok tt)
           [lit "/in/a.pptx"; lit "/in/sub/b.ppt"]
           (lit "/usr/bin/soffice") (lit "/out")).
  - reflexivity.
  - discriminate.
  - reflexivity.
  - reflexivity.
  - repeat split; [left; reflexivity].
  - intros f c t r H. now injection H as <-.
  - apply Permutation_sym, Permutation_rev.
Defined.

(** X21: every entry of the failed list a run returns carries an error
    string, be it the error of the worker's failure record or the text of
    the exception a future raised. *)
Theorem X21_failed_entries_have_messages (w : batch_world) (input_path : str)
    (mirror : bool) (cb : option (Z -> Z -> option result -> outcome unit))
    (files : list str) (soffice ob : str)
    (evs : list event) (s : Z) (failed : list (str * option str)) :
  discover w input_path = Ok files ->
  files <> [] ->
  renderer w = Some soffice ->
  output_base_resolved w = Ok ob ->
  pool_ready w (max_workers (cpu_count w) (len files)) ->
  quiet cb ->
  run_conversion w input_path mirror cb = (evs, Ok (s, failed)) ->
  Forall has_message failed.
Proof.
  intros H1 H2 H3 H4 H5 H6 Hrun.
  rewrite (run_conversion_spec w input_path mirror cb files soffice ob
             H1 H2 H3 H4 H5 H6) in Hrun.
  injection Hrun as _ _ <-.
  apply Forall_flat_map, Forall_forall. intros task _.
  apply failure_entry_has_message.
Qed.

Lemma X21_failed_entries_have_messages_witness :
  Forall has_message
    [(lit "/in/sub/b.ppt", Some (lit "PDF conversion failed (LibreOffice)"))].
Proof.
  apply (X21_failed_entries_have_messages mixed_decks (lit "/in") true None
           [lit "/in/a.pptx"; lit "/in/sub/b.ppt"]
           (lit "/usr/bin/soffice") (lit "/out")
           [EvCheckRenderer; EvPool 2;
            EvConvert (lit "/in/a.pptx") (lit "/out");
            EvConvert (lit "/in/sub/b.ppt") (lit "/out/sub")]
           1).
  - reflexivity.
  - discriminate.
  - reflexivity.
  - reflexivity.
  - repeat split; [left; reflexivity].
  - intros f c t r H. discriminate H.
  - reflexivity.
Defined.

(** X22: once the pool is created and accepts every task, a run hands
    every discovered file to the pool exactly once, in discovery order and
    before any result is looked at, each with the output directory of its
    task; this holds also when futures fail or the progress callback
    raises. With mirroring off, or a single file as input, every output
    directory is the output base. *)
Theorem X22_one_conversion_per_file (w : batch_world) (input_path : str)
    (mirror : bool) (cb : option (Z -> Z -> option result -> outcome unit))
    (files : list str) (soffice ob : str) :
  discover w input_path = Ok files ->
  files <> [] ->
  renderer w = Some soffice ->
  output_base_resolved w = Ok ob ->
  pool_ready w (max_workers (cpu_count w) (len files)) ->
  conversions (fst (run_conversion w input_path mirror cb))
  = make_tasks w mirror ob files
  /\ map fst (conversions (fst (run_conversion w input_path mirror cb)))
     = files
  /\ (mirror && input_is_dir w = false ->
      map snd (conversions (fst (run_conversion w input_path mirror cb)))
      = map (fun _ => ob) files).
Proof.
  intros H1 H2 H3 H4 H5.
  assert (E : conversions (fst (run_conversion w input_path mirror cb))
              = make_tasks w mirror ob files).
  { rewrite (run_conversion_unfold w input_path mirror cb files soffice ob
               H1 H2 H3 H4 H5).
    pose proof (conversions_collect w cb
                  (len (make_tasks w mirror ob files))
                  (as_completed w (make_tasks w mirror ob files))
                  (Tally 0 [] 0)) as Hc.
    destruct (collect w cb (len (make_tasks w mirror ob files))
                (Tally 0 [] 0)
                (as_completed w (make_tasks w mirror ob files)))
      as [evs r].
    cbn [fst] in *. cbn [conversions flat_map app].
    fold (conversions
            (map (fun task => EvConvert (fst task) (snd task))
               (make_tasks w mirror ob files) ++ evs)).
    now rewrite conversions_app, conversions_submitted, Hc, app_nil_r. }
  rewrite E. split; [reflexivity|]. split; [apply map_fst_make_tasks|].
  intros Hm. unfold make_tasks. rewrite Hm. now rewrite map_map.
Qed.

Lemma X22_one_conversion_per_file_witness :
  conversions
    (fst (run_conversion mixed_decks (lit "/in") true
            (Some (fun _ _ _ => Raise (Exc OtherException (lit "bar broke"))))))
  = [(lit "/in/a.pptx", lit "/out"); (lit "/in/sub/b.ppt", lit "/out/sub")]
  /\ map fst
       (conversions
          (fst (run_conversion mixed_decks (lit "/in") true
                  (Some (fun _ _ _ =>
                           Raise (Exc OtherException (lit "bar broke")))))))
     = [lit "/in/a.pptx"; lit "/in/sub/b.ppt"].
Proof.
  refine (let H := X22_one_conversion_per_file mixed_decks (lit "/in") true
                     (Some (fun _ _ _ =>
                              Raise (Exc OtherException (lit "bar broke"))))
                     [lit "/in/a.pptx"; lit "/in/sub/b.ppt"]
                     (lit "/usr/bin/soffice") (lit "/out") _ _ _ _ _ in
          conj (proj1 H) (proj1 (proj2 H))).
  - reflexivity.
  - discriminate.
  - reflexivity.
  - reflexivity.
  - repeat split; [left; reflexivity].
Defined.

(* ===================================================================== *)
(** ** Locating the renderer *)
(* ===================================================================== *)

Section RendererSearch.
Import LibreOffice.

Lemma which_found_truthy (env : lo_env) (c p : str) :
  which_found env c = Some p -> p <> [].
Proof.
  unfold which_found. destruct (which env c) as [f|]; [|discriminate].
  destruct f; simpl; [discriminate|]. intros H. injection H as <-.
  discriminate.
Qed.

Lemma scan_candidates_truthy (env : lo_env) (cs : list (option str))
    (p : str) :
  scan_candidates env cs = Some p -> p <> [].
Proof.
  induction cs as [|[c|] cs IH]; simpl; [discriminate| |exact IH].
  destruct c as [|a c]; simpl; [exact IH|].
  destruct (isabs env (a :: c) && isfile env (a :: c)).
  - intros H. injection H as <-. discriminate.
  - destruct (which_found env (a :: c)) as [f|] eqn:E; [|exact IH].
    intros H. injection H as <-. eapply which_found_truthy; eauto.
Qed.

Lemma scan_names_truthy (env : lo_env) (ns : list str) (p : str) :
  scan_names env ns = Some p -> p <> [].
Proof.
  induction ns as [|n ns IH]; simpl; [discriminate|].
  destruct (which_found env n) as [f|] eqn:E; [|exact IH].
  intros H. injection H as <-. eapply which_found_truthy; eauto.
Qed.

(** X23: when LIBREOFFICE_PATH names an existing file by an absolute
    path, that path is the renderer, whatever else is installed or on the
    search path. *)
Theorem X23_override_wins (env : lo_env) (p : str) :
  LIBREOFFICE_PATH env = Some p ->
  p <> [] ->
  isabs env p = true ->
  isfile env p = true ->
  _find_libreoffice env = Some p
  /\ check_libreoffice_installed env = (true, p).
Proof.
  intros Hp Hne Habs Hfile.
  assert (E : _find_libreoffice env = Some p).
  { unfold _find_libreoffice, candidates.
    destruct (win32 env); rewrite Hp; simpl;
      (destruct p; [congruence|]); simpl; now rewrite Habs, Hfile. }
  split; [exact E|]. unfold check_libreoffice_installed. now rewrite E.
Qed.

Lemma X23_override_wins_witness :
  _find_libreoffice (sample_env (Some (lit "/opt/lo/soffice")))
  = Some (lit "/opt/lo/soffice")
  /\ check_libreoffice_installed (sample_env (Some (lit "/opt/lo/soffice")))
     = (true, lit "/opt/lo/soffice").
Proof.
  apply (X23_override_wins (sample_env (Some (lit "/opt/lo/soffice")))
           (lit "/opt/lo/soffice"));
    [reflexivity | discriminate | reflexivity | reflexivity].
Defined.

(** X24: a renderer path that is reported is never the empty string, and
    the availability check says yes exactly when the search found one;
    with no variable set, nothing on the search path and none of the
    candidates an existing file, nothing is found. *)
Theorem X24_found_path_not_empty (env : lo_env) :
  (forall p, _find_libreoffice env = Some p ->
             p <> [] /\ check_libreoffice_installed env = (true, p))
  /\ (_find_libreoffice env = None ->
      fst (check_libreoffice_installed env) = false)
  /\ (LIBREOFFICE_PATH env = None ->
      (forall c, which env c = None) ->
      (forall c, isfile env c = false) ->
      _find_libreoffice env = None).
Proof.
  split; [|split].
  - intros p H. split.
    + unfold _find_libreoffice in H.
      destruct (scan_candidates env (candidates env)) as [q|] eqn:E.
      * injection H as <-. eapply scan_candidates_truthy; eauto.
      * eapply scan_names_truthy; eauto.
    + unfold check_libreoffice_installed. now rewrite H.
  - intros H. unfold check_libreoffice_installed. now rewrite H.
  - intros Hv Hw Hf. unfold _find_libreoffice, candidates, names.
    destruct (win32 env); rewrite Hv; simpl; unfold which_found;
      rewrite ?Hw, ?Hf, ?andb_false_r; reflexivity.
Qed.

Lemma X24_found_path_not_empty_witness :
  lit "/usr/bin/soffice" <> []
  /\ check_libreoffice_installed (sample_env None)
     = (true, lit "/usr/bin/soffice").
Proof.
  apply (proj1 (X24_found_path_not_empty (sample_env None))
           (lit "/usr/bin/soffice")).
  reflexivity.
Defined.

Lemma scan_candidates_none (env : lo_env) (c : str) (cs : list (option str)) :
  scan_candidates env (Some c :: cs) = None ->
  c <> [] ->
  which_found env c = None /\ scan_candidates env cs = None.
Proof.
  simpl. destruct c as [|a c]; [congruence|]. simpl. intros H _.
  destruct (isabs env (a :: c) && isfile env (a :: c)); [discriminate|].
  destruct (which_found env (a :: c)); [discriminate | auto].
Qed.

(** X25: off Windows the second loop never finds anything: the names it
    tries were already tried as candidates, so the result of the search
    is the result of the loop over the candidates. *)
Theorem X25_names_loop_redundant (env : lo_env) :
  win32 env = false ->
  _find_libreoffice env = scan_candidates env (candidates env).
Proof.
  intros Hw. unfold _find_libreoffice, candidates, names. rewrite Hw.
  destruct (scan_candidates env
              [LIBREOFFICE_PATH env; Some (lit "soffice");
               Some (lit "libreoffice")]) as [p|] eqn:E; [reflexivity|].
  assert (Hrest : scan_candidates env
                    [Some (lit "soffice"); Some (lit "libreoffice")] = None).
  { cbn [scan_candidates] in E.
    destruct (LIBREOFFICE_PATH env) as [c|]; [|exact E].
    destruct (negb (truthy c)); [exact E|].
    destruct (isabs env c && isfile env c); [discriminate|].
    destruct (which_found env c); [discriminate | exact E]. }
  apply scan_candidates_none in Hrest as [H1 Hrest]; [|discriminate].
  apply scan_candidates_none in Hrest as [H2 _]; [|discriminate].
  simpl. now rewrite H1, H2.
Qed.

Lemma X25_names_loop_redundant_witness :
  _find_libreoffice (sample_env None)
  = scan_candidates (sample_env None) (candidates (sample_env None)).
Proof. apply (X25_names_loop_redundant (sample_env None)). reflexivity. Defined.

End RendererSearch.

(* ===================================================================== *)
(** ** The command line *)
(* ===================================================================== *)

(** X26: on a valid input with the renderer at hand, a pool that is
    created and accepts every task, and a progress bar that does not
    raise, [main] does not raise: it returns 0 exactly when the future of
    every task delivered a record that says success, and 1 when some
    conversion failed or some future raised. *)
Theorem X26_exit_code (c : cli) (w : batch_world) (a input_path out : str)
    (files : list str) (soffice ob : str) :
  let mirror := if input_is_dir w then negb (arg_no_mirror c) else false in
  arg_gui c = false ->
  arg_input c = Some a ->
  input_resolved c = Ok input_path ->
  input_exists c = true ->
  input_is_file c
  && negb (existsb (str_eqb (input_suffix_lower c)) POWERPOINT_EXTENSIONS)
  = false ->
  output_base c = Ok out ->
  discover w input_path = Ok files ->
  files <> [] ->
  renderer w = Some soffice ->
  output_base_resolved w = Ok ob ->
  pool_ready w (max_workers (cpu_count w) (len files)) ->
  quiet (Some (on_progress c)) ->
  Permutation (as_completed w (make_tasks w mirror ob files))
              (make_tasks w mirror ob files) ->
  main c w
  = (fst (run_conversion w input_path mirror (Some (on_progress c))),
     Returns (if forallb (succeeded w) (make_tasks w mirror ob files)
              then 0 else 1)).
Proof.
  intros mirror Hgui Hin Hres Hex Hsup Hout H1 H2 H3 H4 H5 H6 H7.
  unfold main. rewrite Hgui, Hin, Hres, Hex, Hsup, Hout. cbn [negb].
  fold mirror.
  rewrite (run_conversion_spec w input_path mirror (Some (on_progress c))
             files soffice ob H1 H2 H3 H4 H5 H6).
  cbn [fst]. f_equal. f_equal.
  rewrite no_failure_iff_all_succeeded, (forallb_Permutation _ _ _ H7).
  now destruct (forallb (succeeded w) (make_tasks w mirror ob files)).
Qed.

Lemma X26_exit_code_witness :
  main mixed_decks_cli mixed_decks
  = (fst (run_conversion mixed_decks (lit "/in") true
            (Some (on_progress mixed_decks_cli))),
     Returns 1).
Proof.
  apply (X26_exit_code mixed_decks_cli mixed_decks (lit "/in") (lit "/in")
           (lit "/out") [lit "/in/a.pptx"; lit "/in/sub/b.ppt"]
           (lit "/usr/bin/soffice") (lit "/out")).
  - reflexivity.
  - reflexivity.
  - reflexivity.
  - reflexivity.
  - reflexivity.
  - reflexivity.
  - reflexivity.
  - discriminate.
  - reflexivity.
  - reflexivity.
  - repeat split; [left; reflexivity].
  - intros f x t r H. now injection H as <-.
  - apply Permutation_sym, Permutation_rev.
Defined.

(** X27: [main] catches RuntimeError only. With files to convert, a
    missing renderer gives exit code 1 after the availability check; a
    failure to resolve or create the output directory gives exit code 1
    if it is a RuntimeError and otherwise leaves [main] as the exception
    it is. No conversion starts in either case. *)
Theorem X27_main_catches_runtime_error_only (c : cli) (w : batch_world)
    (a input_path out f : str) (fs : list str) :
  arg_gui c = false ->
  arg_input c = Some a ->
  input_resolved c = Ok input_path ->
  input_exists c = true ->
  input_is_file c
  && negb (existsb (str_eqb (input_suffix_lower c)) POWERPOINT_EXTENSIONS)
  = false ->
  output_base c = Ok out ->
  discover w input_path = Ok (f :: fs) ->
  (renderer w = None -> main c w = ([EvCheckRenderer], Returns 1))
  /\ (forall soffice e,
         renderer w = Some soffice ->
         output_base_resolved w = Raise e ->
         main c w
         = ([EvCheckRenderer],
            if exc_class_eqb (exc_cls e) RuntimeError
            then Returns 1 else Propagates e)).
Proof.
  intros Hgui Hin Hres Hex Hsup Hout Hd. unfold main.
  rewrite Hgui, Hin, Hres, Hex, Hsup, Hout. cbn [negb]. split.
  - intros Hr.
    rewrite (run_without_renderer w input_path _ _ f fs Hd Hr).
    reflexivity.
  - intros soffice e Hr Hob.
    unfold run_conversion, lift, Batch.check_libreoffice_installed.
    rewrite Hd, Hr, Hob. cbn.
    now destruct (exc_class_eqb (exc_cls e) RuntimeError).
Qed.

Lemma X27_main_catches_runtime_error_only_witness :
  main two_decks_cli no_renderer_batch = ([EvCheckRenderer], Returns 1).
Proof.
  refine (proj1 (X27_main_catches_runtime_error_only two_decks_cli
                   no_renderer_batch (lit "/in") (lit "/in")
                   (lit "/work/out") (lit "/in") [] _ _ _ _ _ _ _) _);
    reflexivity.
Defined.
